(** * sphinx-hoverxref: the extension module [hoverxref/extension.py]

    A shallow embedding of the reference-resolution interceptor
    ([HoverXRefStandardDomain]), the render interceptor
    ([HoverXRefHTMLTranslator.starttag]), the asset step
    ([copy_asset_files]) and [setup], followed by the properties the
    specification states about them.

    Sphinx and docutils are the host: their resolvers, their tag emitter and
    [copy_asset] are variables of the sections below.  The helpers of
    [hoverxref/utils.py] and the table of [hoverxref/registry.py] are
    variables as well. *)

From Stdlib Require Import ZArith String Ascii List.
From stdpp Require Import base option gmap strings list fin_maps.

Local Open Scope string_scope.
Local Open Scope list_scope.

(** ** Python values *)

(** The values that configuration options, node attributes and tag
    attributes take in this module. *)
Inductive pyval :=
| PNone
| PBool (b : bool)
| PInt (z : Z)
| PStr (s : string)
| PList (l : list string).

#[global] Instance pyval_eq_dec : EqDecision pyval.
Proof. solve_decision. Defined.

(** Python truth value: [None], [False], [0], [''] and [[]] are false. *)
Definition truthy (v : pyval) : bool :=
  match v with
  | PNone => false
  | PBool b => b
  | PInt z => negb (Z.eqb z 0)
  | PStr s => negb (String.eqb s EmptyString)
  | PList l => match l with [] => false | _ => true end
  end.

(** [a and b] returns [a] when [a] is false, [b] otherwise. *)
Definition py_and (a b : pyval) : pyval := if truthy a then b else a.

(** [a == b] on the values above ([True == 1] holds in Python). *)
Definition py_eq (a b : pyval) : bool :=
  match a, b with
  | PBool x, PInt z | PInt z, PBool x => Z.eqb (if x then 1 else 0) z
  | _, _ => bool_decide (a = b)
  end.

(** [==] on the result of [dict.get], where a missing key gives [None]. *)
Definition py_get_eq (a b : option pyval) : bool :=
  py_eq (default PNone a) (default PNone b).

(** ** String methods *)

(** [s.startswith(p)]. *)
Definition startswith (s p : string) : bool := String.prefix p s.

(** [s.endswith(p)]. *)
Definition endswith (s p : string) : bool :=
  let n := String.length s in
  let k := String.length p in
  if Nat.leb k n then String.eqb (String.substring (n - k) k s) p else false.

(** [s.replace(old, new)] for a non-empty [old]: the occurrences are taken
    from the left and do not overlap.  [skip] counts the characters of a
    match still to be dropped. *)
Fixpoint replace_from (old new s : string) (skip : nat) : string :=
  match s with
  | EmptyString => EmptyString
  | String c s' =>
      match skip with
      | S k => replace_from old new s' k
      | O =>
          if String.prefix old s
          then new +:+ replace_from old new s' (String.length old - 1)
          else String c (replace_from old new s' 0)
      end
  end.

Definition replace (s old new : string) : string := replace_from old new s 0.

(** [s.split(sep)[-1]] for a one-character [sep]: what follows the last
    separator, the whole string when there is none. *)
Fixpoint split_last_from (sep : ascii) (s acc : string) : string :=
  match s with
  | EmptyString => acc
  | String c s' =>
      if Ascii.eqb c sep then split_last_from sep s' s'
      else split_last_from sep s' acc
  end.

Definition split_last (s : string) (sep : ascii) : string :=
  split_last_from sep s s.

(** [os.path.dirname(p)]: up to the last slash, trailing slashes removed
    unless the head is all slashes. *)
Fixpoint all_slashes (s : string) : bool :=
  match s with
  | EmptyString => true
  | String c s' => Ascii.eqb c "/" && all_slashes s'
  end.

Fixpoint rstrip_slash (s : string) : string :=
  match s with
  | EmptyString => EmptyString
  | String c s' => if all_slashes s then EmptyString else String c (rstrip_slash s')
  end.

Definition dirname (p : string) : string :=
  let tail := split_last p "/" in
  let head := String.substring 0 (String.length p - String.length tail) p in
  if all_slashes head then head else rstrip_slash head.

(** [os.path.join(a, b)] on POSIX. *)
Definition path_join (a b : string) : string :=
  if startswith b "/" then b
  else if String.eqb a EmptyString || endswith a "/" then a +:+ b
  else a +:+ "/" +:+ b.

(** ** Exceptions, and the monad of a computation with a state *)

Inductive exn :=
| AttributeError (name : string)
| DanglingNode.

(** A computation over a state [S]: it returns or raises, and leaves a
    state either way. *)
Definition M (S A : Type) : Type := S → (exn + A) * S.

#[global] Instance M_ret {S} : MRet (M S) := λ A a s, (inr a, s).

#[global] Instance M_bind {S} : MBind (M S) := λ A B f m s,
  match m s with
  | (inr a, s') => f a s'
  | (inl e, s') => (inl e, s')
  end.

Definition raise {S A} (e : exn) : M S A := λ s, (inl e, s).

Definition lift_result {S A} (r : exn + A) : M S A := λ s, (r, s).

(** ** Logging *)

Inductive log_level := WARNING | INFO.

Inductive log_arg :=
| ArgStr (s : string)
| ArgDict (d : gmap string pyval).

(** One call on the module's logger: the level, the message as written in
    the source and the arguments for its placeholders. *)
Record log_record := LogRecord {
  levelname : log_level;
  msg : string;
  args : list log_arg;
}.

Abbreviation Log := (list log_record).

Definition logger_warning (m : string) (a : list log_arg) : M Log () :=
  λ log, (inr (), log ++ [LogRecord WARNING m a]).

Definition logger_info (m : string) (a : list log_arg) : M Log () :=
  λ log, (inr (), log ++ [LogRecord INFO m a]).

(** ** Configuration *)

(** [sphinx.config.Config]: [values] maps a registered option to its
    default and its rebuild marker, and the instance dictionary holds the
    options the user has set. *)
Record Config := mkConfig {
  values : gmap string (pyval * string);
  __dict__ : gmap string pyval;
}.

(** [config.<name>]: the instance dictionary first, then the default of a
    registered option; an unregistered name raises. *)
Definition getattr (c : Config) (name : string) : exn + pyval :=
  match __dict__ c !! name with
  | Some v => inr v
  | None =>
      match values c !! name with
      | Some (dflt, _) => inr dflt
      | None => inl (AttributeError name)
      end
  end.

Record BuildEnvironment := mkEnv { config : Config }.

(** ** Nodes *)

Abbreviation addr := positive.

(** A docutils element: its parent, its attribute dictionary, and the
    metadata this extension stashes on it ([None] when the Python object
    has no [_hoverxref] attribute). *)
Record Element := mkElement {
  parent : option addr;
  attributes : gmap string pyval;
  _hoverxref : option (gmap string pyval);
}.

(** [node.get(attr)]. *)
Definition node_get (n : Element) (attr : string) : option pyval :=
  attributes n !! attr.

(** [node.replace_attr(attr, value)] (with [force] left at [True]). *)
Definition replace_attr (attr : string) (value : pyval) (n : Element) : Element :=
  mkElement (parent n) (<[attr := value]> (attributes n)) (_hoverxref n).

Definition set_hoverxref (d : gmap string pyval) (n : Element) : Element :=
  mkElement (parent n) (attributes n) (Some d).

(** [node._hoverxref]. *)
Definition get_hoverxref {S} (n : Element) : M S (gmap string pyval) :=
  match _hoverxref n with
  | Some d => mret d
  | None => raise (AttributeError "_hoverxref")
  end.

(** ** Module constants *)

Definition ASSETS_FILES : list string :=
  [ "js/hoverxref.js_t";
    "js/tooltipster.bundle.min.js";
    "css/tooltipster.custom.css";
    "css/tooltipster.bundle.min.css";
    "css/tooltipster-sideTip-shadow.min.css" ].

(** The dictionary [_inject_hoverxref_data] builds. *)
Definition hover_metadata (project version docname labelid : pyval)
  : gmap string pyval :=
  <["data-section" := labelid]>
    (<["data-doc" := docname]>
      (<["data-version" := version]>
        (<["data-project" := project]> ∅))).

(** ** The resolution interceptor: [HoverXRefStandardDomain] *)

Section Domain.

(** The builder object, only passed on to the host. *)
Variable Builder : Type.

(** A resolver method of the domain: [env], [fromdocname], [builder],
    [typ], [target], [node], [contnode]. *)
Definition resolver : Type :=
  BuildEnvironment → string → Builder → string → string →
  Element → Element → M Log (option Element).

(** The host's [StandardDomain._resolve_ref_xref] and
    [StandardDomain._resolve_obj_xref]: a fresh reference node, or [None]
    when the target does not resolve.  They do not use this module's
    logger. *)
Variable std_resolve_ref_xref std_resolve_obj_xref :
  BuildEnvironment → string → Builder → string → string →
  Element → Element → option Element.

(** The host's [StandardDomain.resolve_xref], which picks a resolver
    method of the instance by [typ]; the two methods this class overrides
    are its first arguments. *)
Variable std_resolve_xref : resolver → resolver → resolver.

(** [utils.get_ref_xref_data(domain, node, target)] and
    [utils.get_ref_obj_data(domain, node, typ, target)]: the document and
    the anchor id of the target (and the section name). *)
Variable get_ref_xref_data : Element → string → string * string * string.
Variable get_ref_obj_data : Element → string → string → string * string.

(** [registry.object_types]. *)
Variable object_types : list string.

Definition _is_hoverxref_configured (env : BuildEnvironment) : M Log pyval :=
  project ← lift_result (getattr (config env) "hoverxref_project");
  version ← lift_result (getattr (config env) "hoverxref_version");
  mret (py_and project version).

Definition _inject_hoverxref_data (env : BuildEnvironment) (refnode : Element)
    (docname labelid : string) : M Log Element :=
  let refnode := replace_attr "classes" (PList ["hoverxref"]) refnode in
  project ← lift_result (getattr (config env) "hoverxref_project");
  version ← lift_result (getattr (config env) "hoverxref_version");
  mret (set_hoverxref
          (hover_metadata project version (PStr docname) (PStr labelid))
          refnode).

Definition _resolve_ref_xref : resolver :=
  λ env fromdocname builder typ target node contnode,
  match std_resolve_ref_xref env fromdocname builder typ target node contnode with
  | None => mret None
  | Some refnode =>
      configured ← _is_hoverxref_configured env;
      (if negb (truthy configured) && String.eqb typ "hoverxref"
       then logger_warning "hoverxref role is not fully configured." []
       else mret ());;
      configured ← _is_hoverxref_configured env;
      wanted ←
        (if truthy configured
         then auto_ref ← lift_result (getattr (config env) "hoverxref_auto_ref");
              mret (truthy auto_ref || String.eqb typ "hoverxref")
         else mret false);
      if (wanted : bool)
      then
        let '(docname, labelid, _) := get_ref_xref_data node target in
        refnode ← _inject_hoverxref_data env refnode docname labelid;
        data ← get_hoverxref refnode;
        logger_info ":ref: _hoverxref injected: fromdocname=%s %s"
                    [ArgStr fromdocname; ArgDict data];;
        mret (Some refnode)
      else mret (Some refnode)
  end.

Definition _resolve_obj_xref : resolver :=
  λ env fromdocname builder typ target node contnode,
  match std_resolve_obj_xref env fromdocname builder typ target node contnode with
  | None => mret None
  | Some refnode =>
      if bool_decide (typ ∈ object_types)
      then
        let '(docname, labelid) := get_ref_obj_data node typ target in
        configured ← _is_hoverxref_configured env;
        if truthy configured
        then
          refnode ← _inject_hoverxref_data env refnode docname labelid;
          data ← get_hoverxref refnode;
          logger_info ":%s: _hoverxref injected: fromdocname=%s %s"
                      [ArgStr typ; ArgStr fromdocname; ArgDict data];;
          mret (Some refnode)
        else mret (Some refnode)
      else mret (Some refnode)
  end.

Definition resolve_xref : resolver :=
  λ env fromdocname builder typ target node contnode,
  if String.eqb typ "hoverxref"
  then _resolve_ref_xref env fromdocname builder typ target node contnode
  else std_resolve_xref _resolve_ref_xref _resolve_obj_xref
         env fromdocname builder typ target node contnode.

End Domain.

(** ** The render interceptor: [HoverXRefHTMLTranslator] *)

(** The document tree as a store of elements, so that a node and its parent
    are two objects of one heap. *)
Record RenderState := mkRender {
  doctree : gmap addr Element;
  render_log : Log;
}.

Definition deref (a : addr) : M RenderState Element :=
  λ st, match doctree st !! a with
        | Some n => (inr n, st)
        | None => (inl DanglingNode, st)
        end.

(** An in-place change of the element at [a]. *)
Definition mutate (a : addr) (f : Element → Element) : M RenderState () :=
  λ st, (inr (), mkRender (alter f a (doctree st)) (render_log st)).

Definition render_info (m : string) (a : list log_arg) : M RenderState () :=
  λ st, (inr (), mkRender (doctree st) (render_log st ++ [LogRecord INFO m a])).

(** [node.parent.<...>]: a node without a parent has [None] there, and an
    attribute access on [None] raises. *)
Definition parent_of (n : Element) : M RenderState addr :=
  match parent n with
  | Some p => mret p
  | None => raise (AttributeError "get")
  end.

(** [attributes.update(d)]: the entries of [d] replace those of
    [attributes] with the same key. *)
Definition dict_update (attrs d : gmap string pyval) : gmap string pyval :=
  d ∪ attrs.

Section Translator.

(** The host's [HTMLTranslator.starttag], which reads the tree and
    returns the text of the tag. *)
Variable std_starttag :
  gmap addr Element → addr → string → string → bool → gmap string pyval → string.

(** [super().starttag(node, tagname, suffix, empty, **attributes)]. *)
Definition super_starttag (node : addr) (tagname : string) (suffix : string)
    (empty : bool) (attrs : gmap string pyval) : M RenderState string :=
  λ st, (inr (std_starttag (doctree st) node tagname suffix empty attrs), st).

Definition starttag (node : addr) (tagname : string) (suffix : string)
    (empty : bool) (attrs : gmap string pyval) : M RenderState string :=
  attrs ←
    (if String.eqb tagname "a"
     then
       n ← deref node;
       match _hoverxref n with
       | Some data =>
           let attrs := dict_update attrs data in
           render_info "_hoverxref attributes: %s" [ArgDict attrs];;
           mret attrs
       | None => mret attrs
       end
     else if String.eqb tagname "dt"
     then
       n ← deref node;
       p ← parent_of n;
       pn ← deref p;
       (if py_get_eq (node_get pn "ids") (node_get n "ids")
        then mutate node (replace_attr "ids" (PList []))
        else mret ());;
       mret attrs
     else mret attrs);
  super_starttag node tagname suffix empty attrs.

End Translator.

(** ** Asset templating: [copy_asset_files] *)

(** The application object, as far as this step reads it. *)
Record Sphinx := mkSphinx {
  app_config : Config;
  outdir : string;
}.

Section CopyAssetFiles.

(** The output tree, and the host's [copy_asset(source, destination,
    context)], which renders a template or copies a file into it. *)
Variable FS : Type.
Variable copy_asset : string → string → gmap string pyval → FS → FS.

(** [__file__] of the module. *)
Variable module_file : string.

(** The exceptions a build can end with. *)
Variable Exception : Type.

(** The two loops that build the template context: the defaults of the
    registered options of this extension, then the values the user set. *)
Definition build_context (c : Config) : gmap string pyval :=
  let context : gmap string pyval := ∅ in
  let context :=
    map_fold (λ attr v context,
                if startswith attr "hoverxref_"
                then <[attr := v.1]> context else context)
             context (values c) in
  map_fold (λ attr v context,
              if startswith attr "hoverxref_"
              then <[attr := v]> context else context)
           context (__dict__ c).

Definition asset_source (f : string) : string :=
  path_join (path_join (dirname module_file) "_static") f.

Definition asset_destination (app : Sphinx) (f : string) : string :=
  path_join (path_join (outdir app) "_static")
            (replace (split_last f ".") "js_t" "js").

(** [exception] is [None] after a successful build. *)
Definition copy_asset_files (app : Sphinx) (exception : option Exception)
    (fs : FS) : FS :=
  match exception with
  | None =>
      let context := build_context (app_config app) in
      foldl (λ fs f,
               copy_asset (asset_source f) (asset_destination app f) context fs)
            fs ASSETS_FILES
  | Some _ => fs
  end.

End CopyAssetFiles.

(** ** [setup] *)

Inductive node_class := nodes_inline.

Record XRefRole := mkXRefRole {
  lowercase : bool;
  innernodeclass : node_class;
  warn_dangling : bool;
}.

Inductive translator_class := HoverXRefHTMLTranslator.
Inductive domain_class := HoverXRefStandardDomain.
Inductive callback := copy_asset_files_callback.

(** The calls [setup] makes on the application object.  What the host
    answers is its own business; [setup] is the sequence of its requests. *)
Inductive app_call :=
| require_sphinx (v : string)
| add_config_value (name : string) (dflt : pyval) (rebuild : string)
| set_translator (name : string) (cls : translator_class) (override : bool)
| add_role_to_domain (domain role : string) (r : XRefRole)
| add_domain (cls : domain_class) (override : bool)
| connect (event : string) (cb : callback)
| add_js_file (f : string)
| add_css_file (f : string).

Definition call (c : app_call) : M (list app_call) () :=
  λ calls, (inr (), calls ++ [c]).

(** [for x in l: body(x)]. *)
Fixpoint for_each {S A} (l : list A) (body : A → M S ()) : M S () :=
  match l with
  | [] => mret ()
  | x :: l' => body x;; for_each l' body
  end.

(** [os.environ.get(name)]. *)
Definition environ_get (environ : gmap string string) (name : string) : pyval :=
  match environ !! name with
  | Some v => PStr v
  | None => PNone
  end.

Section Setup.

(** [os.environ], and [version] of the package. *)
Variable environ : gmap string string.
Variable version : string.

Definition setup : M (list app_call) (gmap string pyval) :=
  call (require_sphinx "1.8");;
  let default_project := environ_get environ "READTHEDOCS_PROJECT" in
  let default_version := environ_get environ "READTHEDOCS_VERSION" in
  call (add_config_value "hoverxref_project" default_project "html");;
  call (add_config_value "hoverxref_version" default_version "html");;
  call (add_config_value "hoverxref_auto_ref" (PBool false) "env");;
  call (add_config_value "hoverxref_tooltip_api_host"
          (PStr "https://readthedocs.org") "env");;
  call (add_config_value "hoverxref_tooltip_theme"
          (PList ["tooltipster-shadow"; "tooltipster-shadow-custom"]) "env");;
  call (add_config_value "hoverxref_tooltip_interactive" (PBool true) "env");;
  call (add_config_value "hoverxref_tooltip_maxwidth" (PInt 450) "env");;
  call (add_config_value "hoverxref_tooltip_animation" (PStr "fade") "env");;
  call (add_config_value "hoverxref_tooltip_animation_duration" (PInt 0) "env");;
  call (add_config_value "hoverxref_tooltip_content" (PStr "Loading...") "env");;
  call (add_config_value "hoverxref_tooltip_class" (PStr "rst-content") "env");;
  call (set_translator "html" HoverXRefHTMLTranslator true);;
  call (set_translator "readthedocs" HoverXRefHTMLTranslator true);;
  call (add_role_to_domain "std" "hoverxref"
          (mkXRefRole true nodes_inline true));;
  call (add_domain HoverXRefStandardDomain true);;
  call (connect "build-finished" copy_asset_files_callback);;
  for_each ASSETS_FILES (λ f,
    (if endswith f ".js" || endswith f ".js_t"
     then call (add_js_file (replace f ".js_t" ".js"))
     else mret ());;
    (if endswith f ".css"
     then call (add_css_file f)
     else mret ()));;
  mret (<["parallel_write_safe" := PBool true]>
          (<["parallel_read_safe" := PBool true]>
            (<["version" := PStr version]> ∅))).

End Setup.

(** The options a sequence of calls registers, in order. *)
Definition registered_options (calls : list app_call) : list string :=
  flat_map (λ c, match c with
                 | add_config_value name _ _ => [name]
                 | _ => []
                 end) calls.

(** The names of the options of this extension, as [setup] spells them. *)
Definition hoverxref_options : list string :=
  [ "hoverxref_project"; "hoverxref_version"; "hoverxref_auto_ref";
    "hoverxref_tooltip_api_host"; "hoverxref_tooltip_theme";
    "hoverxref_tooltip_interactive"; "hoverxref_tooltip_maxwidth";
    "hoverxref_tooltip_animation"; "hoverxref_tooltip_animation_duration";
    "hoverxref_tooltip_content"; "hoverxref_tooltip_class" ].

(** The host's side of [add_config_value]: the default and the rebuild
    marker are stored under the name. *)
Definition register_call (c : Config) (a : app_call) : Config :=
  match a with
  | add_config_value name dflt rebuild =>
      mkConfig (<[name := (dflt, rebuild)]> (values c)) (__dict__ c)
  | _ => c
  end.

Definition register_calls (calls : list app_call) (c : Config) : Config :=
  foldl register_call c calls.

(** The configuration of a build: the options the extension registers on
    top of [c], whose instance dictionary holds what the user set. *)
Definition config_after_setup (environ : gmap string string) (version : string)
    (c : Config) : Config :=
  register_calls (setup environ version []).2 c.

(** ** A small project, after the test suite: document [index] refers to
    label [section-i] of [chapter-i] and to the [confval] object
    [conf-title] of [configuration]. *)

Module Example.

Definition labels : gmap string (string * string * string) :=
  {[ "section-i" := ("chapter-i", "section-i", "Section I") ]}.

Definition objects : gmap (string * string) (string * string) :=
  {[ ("confval", "conf-title") := ("configuration", "confval-conf-title") ]}.

Definition plain_reference (docname labelid : string) : Element :=
  mkElement None
    (<["refuri" := PStr (docname +:+ ".html#" +:+ labelid)]>
      (<["classes" := PList []]> ∅))
    None.

Definition host_ref (env : BuildEnvironment) (fromdocname : string) (b : ())
    (typ target : string) (node contnode : Element) : option Element :=
  match labels !! target with
  | Some (docname, labelid, _) => Some (plain_reference docname labelid)
  | None => None
  end.

Definition host_obj (env : BuildEnvironment) (fromdocname : string) (b : ())
    (typ target : string) (node contnode : Element) : option Element :=
  match objects !! (typ, target) with
  | Some (docname, labelid) => Some (plain_reference docname labelid)
  | None => None
  end.

Definition host_dispatch (r o : resolver ()) : resolver () :=
  λ env fromdocname b typ target node contnode,
  if String.eqb typ "ref"
  then r env fromdocname b typ target node contnode
  else o env fromdocname b typ target node contnode.

Definition xref_data (node : Element) (target : string)
  : string * string * string :=
  default (EmptyString, EmptyString, EmptyString) (labels !! target).

Definition obj_data (node : Element) (typ target : string) : string * string :=
  default (EmptyString, EmptyString) (objects !! (typ, target)).

Definition pending : Element := mkElement None ∅ None.

(** [conf.py] sets the project and the version. *)
Definition configured : Config :=
  config_after_setup ∅ "0.1"
    (mkConfig ∅ (<["hoverxref_version" := PStr "myversion"]>
                  (<["hoverxref_project" := PStr "myproject"]> ∅))).

(** The same with [hoverxref_auto_ref = True]. *)
Definition configured_auto : Config :=
  config_after_setup ∅ "0.1"
    (mkConfig ∅ (<["hoverxref_auto_ref" := PBool true]>
                  (<["hoverxref_version" := PStr "myversion"]>
                    (<["hoverxref_project" := PStr "myproject"]> ∅)))).

(** [conf.py] sets nothing, and the environment has no Read the Docs
    variables. *)
Definition unconfigured : Config := config_after_setup ∅ "0.1" (mkConfig ∅ ∅).

(** [conf.py] sets nothing, on Read the Docs. *)
Definition rtd_environ : gmap string string :=
  <["READTHEDOCS_VERSION" := "latest"]>
    (<["READTHEDOCS_PROJECT" := "myproject"]> ∅).

(** A tree with a definition list at 1 and its term at 2, which repeats
    the id of the list, and a resolved hover reference at 3. *)
Definition tree : gmap addr Element :=
  <[3%positive :=
      mkElement (Some 1%positive)
        (<["classes" := PList ["hoverxref"]]> ∅)
        (Some (hover_metadata (PStr "myproject") (PStr "myversion")
                 (PStr "chapter-i") (PStr "section-i")))]>
    (<[2%positive :=
        mkElement (Some 1%positive)
          (<["ids" := PList ["confval-conf-title"]]> ∅) None]>
      (<[1%positive :=
          mkElement None (<["ids" := PList ["confval-conf-title"]]> ∅) None]> ∅)).

(** A host emitter that prints the id of the node, if it has one. *)
Definition host_starttag (t : gmap addr Element) (node : addr)
    (tagname suffix : string) (empty : bool) (attrs : gmap string pyval)
  : string :=
  match t !! node with
  | Some n =>
      match node_get n "ids" with
      | Some (PList (i :: _)) => "<" +:+ tagname +:+ " id=" +:+ i +:+ ">"
      | _ => "<" +:+ tagname +:+ ">"
      end
  | None => EmptyString
  end.

End Example.

(** * Properties *)

(** ** Running the monad *)

Lemma bind_returns {S A B} (m : M S A) (f : A → M S B) (s s' : S) (a : A) :
  m s = (inr a, s') → (m ≫= f) s = f a s'.
Proof. intros H. unfold mbind, M_bind. by rewrite H. Qed.

Lemma bind_raises {S A B} (m : M S A) (f : A → M S B) (s s' : S) (e : exn) :
  m s = (inl e, s') → (m ≫= f) s = (inl e, s').
Proof. intros H. unfold mbind, M_bind. by rewrite H. Qed.

Ltac run_M :=
  unfold mbind, M_bind, mret, M_ret, lift_result, raise,
    logger_warning, logger_info; simpl.

(** ** The metadata dictionary *)

Lemma hover_metadata_dom (project version docname labelid : pyval) :
  dom (hover_metadata project version docname labelid)
  = ({["data-project"]} ∪ {["data-version"]} ∪ {["data-doc"]} ∪ {["data-section"]}
     : gset string).
Proof.
  unfold hover_metadata. rewrite !dom_insert_L, dom_empty_L. set_solver.
Qed.

Lemma hover_metadata_lookup (project version docname labelid : pyval) :
  hover_metadata project version docname labelid !! "data-project" = Some project
  ∧ hover_metadata project version docname labelid !! "data-version" = Some version
  ∧ hover_metadata project version docname labelid !! "data-doc" = Some docname
  ∧ hover_metadata project version docname labelid !! "data-section" = Some labelid.
Proof. unfold hover_metadata. by simplify_map_eq. Qed.

Lemma dict_update_lookup (attrs d : gmap string pyval) (k : string) :
  dict_update attrs d !! k
  = match d !! k with Some v => Some v | None => attrs !! k end.
Proof.
  unfold dict_update. destruct (d !! k) as [v|] eqn:Hd.
  - by apply lookup_union_Some_l.
  - by rewrite lookup_union_r.
Qed.

(** ** Configuration state *)

Lemma is_configured_run (env : BuildEnvironment) (project version : pyval)
    (log : Log) :
  getattr (config env) "hoverxref_project" = inr project →
  getattr (config env) "hoverxref_version" = inr version →
  _is_hoverxref_configured env log = (inr (py_and project version), log).
Proof.
  intros Hp Hv. unfold _is_hoverxref_configured. run_M. by rewrite Hp, Hv.
Qed.

Lemma py_and_truthy (a b : pyval) :
  truthy (py_and a b) = truthy a && truthy b.
Proof. unfold py_and. by destruct (truthy a) eqn:Ha. Qed.

Lemma inject_run (env : BuildEnvironment) (refnode : Element)
    (docname labelid : string) (project version : pyval) (log : Log) :
  getattr (config env) "hoverxref_project" = inr project →
  getattr (config env) "hoverxref_version" = inr version →
  _inject_hoverxref_data env refnode docname labelid log
  = (inr (set_hoverxref
            (hover_metadata project version (PStr docname) (PStr labelid))
            (replace_attr "classes" (PList ["hoverxref"]) refnode)),
     log).
Proof.
  intros Hp Hv. unfold _inject_hoverxref_data. run_M. by rewrite Hp, Hv.
Qed.

(** ** The anchor branch of the render interceptor *)

Lemma starttag_anchor_metadata
    (std_starttag : gmap addr Element → addr → string → string → bool →
                    gmap string pyval → string)
    (st : RenderState) (a : addr) (n : Element) (data : gmap string pyval)
    (suffix : string) (empty : bool) (attrs : gmap string pyval) :
  doctree st !! a = Some n →
  _hoverxref n = Some data →
  starttag std_starttag a "a" suffix empty attrs st
  = (inr (std_starttag (doctree st) a "a" suffix empty (dict_update attrs data)),
     mkRender (doctree st)
       (render_log st ++ [LogRecord INFO "_hoverxref attributes: %s"
                            [ArgDict (dict_update attrs data)]])).
Proof.
  intros Hn Hd. unfold starttag, deref, render_info, super_starttag. run_M.
  by rewrite Hn, Hd.
Qed.

Lemma starttag_anchor_plain
    (std_starttag : gmap addr Element → addr → string → string → bool →
                    gmap string pyval → string)
    (st : RenderState) (a : addr) (n : Element)
    (suffix : string) (empty : bool) (attrs : gmap string pyval) :
  doctree st !! a = Some n →
  _hoverxref n = None →
  starttag std_starttag a "a" suffix empty attrs st
  = (inr (std_starttag (doctree st) a "a" suffix empty attrs), st).
Proof.
  intros Hn Hd. unfold starttag, deref, super_starttag. run_M.
  by rewrite Hn, Hd.
Qed.

(** ** The resolution interceptor *)

Section DomainProperties.

Variable Builder : Type.
Variable std_resolve_ref_xref std_resolve_obj_xref :
  BuildEnvironment → string → Builder → string → string →
  Element → Element → option Element.
Variable std_resolve_xref : resolver Builder → resolver Builder → resolver Builder.
Variable get_ref_xref_data : Element → string → string * string * string.
Variable get_ref_obj_data : Element → string → string → string * string.
Variable object_types : list string.

Local Abbreviation ref_xref :=
  (_resolve_ref_xref Builder std_resolve_ref_xref get_ref_xref_data).
Local Abbreviation obj_xref :=
  (_resolve_obj_xref Builder std_resolve_obj_xref get_ref_obj_data object_types).
Local Abbreviation xref :=
  (resolve_xref Builder std_resolve_ref_xref std_resolve_obj_xref
     std_resolve_xref get_ref_xref_data get_ref_obj_data object_types).

(** The label resolver on a configured build, when the role or the
    auto-apply flag asks for the metadata. *)
Lemma ref_xref_injects env fromdocname builder typ target node contnode
    refnode project version auto_ref docname labelid sectname log :
  getattr (config env) "hoverxref_project" = inr project →
  getattr (config env) "hoverxref_version" = inr version →
  truthy project = true →
  truthy version = true →
  getattr (config env) "hoverxref_auto_ref" = inr auto_ref →
  truthy auto_ref || String.eqb typ "hoverxref" = true →
  std_resolve_ref_xref env fromdocname builder typ target node contnode
    = Some refnode →
  get_ref_xref_data node target = (docname, labelid, sectname) →
  ref_xref env fromdocname builder typ target node contnode log
  = (inr (Some (set_hoverxref
                  (hover_metadata project version (PStr docname) (PStr labelid))
                  (replace_attr "classes" (PList ["hoverxref"]) refnode))),
     log ++ [LogRecord INFO ":ref: _hoverxref injected: fromdocname=%s %s"
               [ArgStr fromdocname;
                ArgDict (hover_metadata project version
                           (PStr docname) (PStr labelid))]]).
Proof.
  intros Hp Hv Tp Tv Ha Hw Hr Hd. unfold _resolve_ref_xref. rewrite Hr.
  rewrite (bind_returns _ _ _ _ _ (is_configured_run _ _ _ _ Hp Hv)).
  rewrite py_and_truthy, Tp, Tv. simpl.
  unfold mbind at 1, M_bind at 1. unfold mret at 1, M_ret at 1.
  rewrite (bind_returns _ _ _ _ _ (is_configured_run _ _ _ _ Hp Hv)).
  rewrite py_and_truthy, Tp, Tv. simpl.
  run_M. rewrite Ha, Hw, Hd.
  rewrite (inject_run _ _ _ _ _ _ _ Hp Hv). by simpl.
Qed.

(** The label resolver on a build without project or version. *)
Lemma ref_xref_unconfigured env fromdocname builder typ target node contnode
    refnode project version log :
  getattr (config env) "hoverxref_project" = inr project →
  getattr (config env) "hoverxref_version" = inr version →
  truthy project && truthy version = false →
  std_resolve_ref_xref env fromdocname builder typ target node contnode
    = Some refnode →
  ref_xref env fromdocname builder typ target node contnode log
  = (inr (Some refnode),
     if String.eqb typ "hoverxref"
     then log ++ [LogRecord WARNING "hoverxref role is not fully configured." []]
     else log).
Proof.
  intros Hp Hv Hc Hr. unfold _resolve_ref_xref. rewrite Hr.
  rewrite (bind_returns _ _ _ _ _ (is_configured_run _ _ _ _ Hp Hv)).
  rewrite py_and_truthy, Hc. simpl.
  destruct (String.eqb typ "hoverxref"); run_M;
    rewrite (is_configured_run _ _ _ _ Hp Hv); by rewrite py_and_truthy, Hc.
Qed.

(** The object resolver on a registered object type. *)
Lemma obj_xref_registered env fromdocname builder typ target node contnode
    refnode project version docname labelid log :
  typ ∈ object_types →
  getattr (config env) "hoverxref_project" = inr project →
  getattr (config env) "hoverxref_version" = inr version →
  std_resolve_obj_xref env fromdocname builder typ target node contnode
    = Some refnode →
  get_ref_obj_data node typ target = (docname, labelid) →
  obj_xref env fromdocname builder typ target node contnode log
  = if truthy project && truthy version
    then (inr (Some (set_hoverxref
                       (hover_metadata project version
                          (PStr docname) (PStr labelid))
                       (replace_attr "classes" (PList ["hoverxref"]) refnode))),
          log ++ [LogRecord INFO ":%s: _hoverxref injected: fromdocname=%s %s"
                    [ArgStr typ; ArgStr fromdocname;
                     ArgDict (hover_metadata project version
                                (PStr docname) (PStr labelid))]])
    else (inr (Some refnode), log).
Proof.
  intros Ht Hp Hv Hr Hd. unfold _resolve_obj_xref. rewrite Hr.
  rewrite bool_decide_eq_true_2 by done. rewrite Hd.
  rewrite (bind_returns _ _ _ _ _ (is_configured_run _ _ _ _ Hp Hv)).
  rewrite py_and_truthy.
  destruct (truthy project && truthy version); [|done].
  rewrite (bind_returns _ _ _ _ _ (inject_run _ _ _ _ _ _ _ Hp Hv)).
  by run_M.
Qed.

(** C1.  A reference of the [hoverxref] role that the host resolves, on a
    build whose project and version are both set and non-empty: the
    returned node is the host's node with its classes overwritten by the
    marker [hoverxref] and with the metadata dictionary, whose keys are
    exactly [data-project], [data-version], [data-doc] and [data-section],
    holding the configured project and version and the document and
    anchor id of the target.  Rendered as an [a] tag, the host emitter
    receives the tag's attributes with these four entries merged in and
    every other key as it was. *)
Theorem hover_role_injects_metadata env fromdocname builder target node
    contnode refnode project version auto_ref docname labelid sectname log :
  getattr (config env) "hoverxref_project" = inr project →
  getattr (config env) "hoverxref_version" = inr version →
  truthy project = true →
  truthy version = true →
  getattr (config env) "hoverxref_auto_ref" = inr auto_ref →
  std_resolve_ref_xref env fromdocname builder "hoverxref" target node contnode
    = Some refnode →
  get_ref_xref_data node target = (docname, labelid, sectname) →
  let data := hover_metadata project version (PStr docname) (PStr labelid) in
  ∃ refnode',
    xref env fromdocname builder "hoverxref" target node contnode log
    = (inr (Some refnode'),
       log ++ [LogRecord INFO ":ref: _hoverxref injected: fromdocname=%s %s"
                 [ArgStr fromdocname; ArgDict data]])
    ∧ _hoverxref refnode' = Some data
    ∧ dom data = ({["data-project"]} ∪ {["data-version"]} ∪ {["data-doc"]}
                  ∪ {["data-section"]} : gset string)
    ∧ data !! "data-project" = Some project
    ∧ data !! "data-version" = Some version
    ∧ data !! "data-doc" = Some (PStr docname)
    ∧ data !! "data-section" = Some (PStr labelid)
    ∧ node_get refnode' "classes" = Some (PList ["hoverxref"])
    ∧ ∀ std_starttag st a suffix empty attrs,
        doctree st !! a = Some refnode' →
        (starttag std_starttag a "a" suffix empty attrs st).1
        = inr (std_starttag (doctree st) a "a" suffix empty
                 (dict_update attrs data))
        ∧ dict_update attrs data !! "data-project" = Some project
        ∧ dict_update attrs data !! "data-version" = Some version
        ∧ dict_update attrs data !! "data-doc" = Some (PStr docname)
        ∧ dict_update attrs data !! "data-section" = Some (PStr labelid)
        ∧ ∀ k, k ∉ dom data → dict_update attrs data !! k = attrs !! k.
Proof.
  intros Hp Hv Tp Tv Ha Hr Hd data. subst data.
  destruct (hover_metadata_lookup project version (PStr docname) (PStr labelid))
    as (L1 & L2 & L3 & L4).
  eexists. split.
  { unfold resolve_xref. simpl.
    eapply ref_xref_injects; eauto. by rewrite orb_true_r. }
  split; [done|]. split; [apply hover_metadata_dom|].
  do 4 (split; [done|]).
  split. { unfold node_get. simpl. by rewrite lookup_insert_eq. }
  intros std_starttag st a suffix empty attrs Hst.
  split. { by rewrite (starttag_anchor_metadata _ _ _ _ _ _ _ _ Hst eq_refl). }
  rewrite !dict_update_lookup, L1, L2, L3, L4.
  do 4 (split; [done|]).
  intros k Hk. rewrite dict_update_lookup.
  apply not_elem_of_dom in Hk. by rewrite Hk.
Qed.

(** C2, as the code has it.  A reference of a kind other than [hoverxref]
    that the host's dispatch hands to the label resolver, on a build with
    the auto-apply flag on and project and version set: [resolve_xref]
    returns the host's node with the marker class and the metadata, whose
    keys are exactly the four [data-] keys and whose values are the
    configured project and version and the document and anchor id of the
    target; these are the metadata and the classes the [hoverxref] role
    gives the node.  [resolve_xref] hands every kind but [hoverxref] to the
    host's dispatch, with the overridden resolvers in place. *)
Theorem auto_ref_injects_like_role env fromdocname builder typ target node
    contnode refnode project version auto_ref docname labelid sectname log :
  typ ≠ "hoverxref" →
  std_resolve_xref ref_xref obj_xref
    env fromdocname builder typ target node contnode
  = ref_xref env fromdocname builder typ target node contnode →
  getattr (config env) "hoverxref_project" = inr project →
  getattr (config env) "hoverxref_version" = inr version →
  truthy project = true →
  truthy version = true →
  getattr (config env) "hoverxref_auto_ref" = inr auto_ref →
  truthy auto_ref = true →
  std_resolve_ref_xref env fromdocname builder typ target node contnode
    = Some refnode →
  get_ref_xref_data node target = (docname, labelid, sectname) →
  let data := hover_metadata project version (PStr docname) (PStr labelid) in
  ∃ refnode',
    xref env fromdocname builder typ target node contnode log
    = (inr (Some refnode'),
       log ++ [LogRecord INFO ":ref: _hoverxref injected: fromdocname=%s %s"
                 [ArgStr fromdocname; ArgDict data]])
    ∧ ref_xref env fromdocname builder typ target node contnode log
      = (inr (Some refnode'),
         log ++ [LogRecord INFO ":ref: _hoverxref injected: fromdocname=%s %s"
                   [ArgStr fromdocname; ArgDict data]])
    ∧ _hoverxref refnode' = Some data
    ∧ dom data = ({["data-project"]} ∪ {["data-version"]} ∪ {["data-doc"]}
                    ∪ {["data-section"]} : gset string)
    ∧ data !! "data-project" = Some project
    ∧ data !! "data-version" = Some version
    ∧ data !! "data-doc" = Some (PStr docname)
    ∧ data !! "data-section" = Some (PStr labelid)
    ∧ node_get refnode' "classes" = Some (PList ["hoverxref"])
    ∧ xref env fromdocname builder typ target node contnode
      = std_resolve_xref ref_xref obj_xref
          env fromdocname builder typ target node contnode
    ∧ ∀ hovernode,
        std_resolve_ref_xref env fromdocname builder "hoverxref" target
          node contnode = Some hovernode →
        ∃ hovernode',
          xref env fromdocname builder "hoverxref" target node contnode log
          = (inr (Some hovernode'),
             log ++ [LogRecord INFO
                       ":ref: _hoverxref injected: fromdocname=%s %s"
                       [ArgStr fromdocname; ArgDict data]])
          ∧ _hoverxref hovernode' = _hoverxref refnode'
          ∧ node_get hovernode' "classes" = node_get refnode' "classes".
Proof.
  intros Ht Hroute Hp Hv Tp Tv Ha Ta Hr Hd data. subst data.
  destruct (hover_metadata_lookup project version (PStr docname) (PStr labelid))
    as (L1 & L2 & L3 & L4).
  assert (Hx : xref env fromdocname builder typ target node contnode
               = std_resolve_xref ref_xref obj_xref
                   env fromdocname builder typ target node contnode).
  { unfold resolve_xref. apply String.eqb_neq in Ht. by rewrite Ht. }
  assert (Hrun : ref_xref env fromdocname builder typ target node contnode log
                 = (inr (Some (set_hoverxref
                                 (hover_metadata project version
                                    (PStr docname) (PStr labelid))
                                 (replace_attr "classes" (PList ["hoverxref"])
                                    refnode))),
                    log ++ [LogRecord INFO
                              ":ref: _hoverxref injected: fromdocname=%s %s"
                              [ArgStr fromdocname;
                               ArgDict (hover_metadata project version
                                          (PStr docname) (PStr labelid))]])).
  { eapply ref_xref_injects; eauto. by rewrite Ta. }
  eexists. split. { rewrite Hx, Hroute. exact Hrun. }
  split; [exact Hrun|].
  split; [done|]. split; [apply hover_metadata_dom|].
  do 4 (split; [done|]).
  split. { unfold node_get. simpl. by rewrite lookup_insert_eq. }
  split; [exact Hx|].
  intros hovernode Hh. eexists. split.
  { unfold resolve_xref. simpl.
    eapply ref_xref_injects; eauto. by rewrite orb_true_r. }
  split; [done|]. unfold node_get. simpl. by rewrite !lookup_insert_eq.
Qed.

(** C3.  A reference of the [hoverxref] role that the host resolves, on a
    build whose project or version is unset or empty: the node returned is
    the host's node, untouched, and the log grows by exactly one warning.
    Rendered as an [a] tag, such a node, which the host made without
    metadata, goes to the host emitter with its attributes unchanged, and
    neither the tree nor the log changes. *)
Theorem hover_role_unconfigured_warns env fromdocname builder target node
    contnode refnode project version log :
  getattr (config env) "hoverxref_project" = inr project →
  getattr (config env) "hoverxref_version" = inr version →
  truthy project && truthy version = false →
  std_resolve_ref_xref env fromdocname builder "hoverxref" target node contnode
    = Some refnode →
  _hoverxref refnode = None →
  xref env fromdocname builder "hoverxref" target node contnode log
  = (inr (Some refnode),
     log ++ [LogRecord WARNING "hoverxref role is not fully configured." []])
  ∧ ∀ std_starttag st a suffix empty attrs,
      doctree st !! a = Some refnode →
      starttag std_starttag a "a" suffix empty attrs st
      = (inr (std_starttag (doctree st) a "a" suffix empty attrs), st).
Proof.
  intros Hp Hv Hc Hr Hn. split.
  - unfold resolve_xref. simpl.
    by rewrite (ref_xref_unconfigured _ _ _ _ _ _ _ _ _ _ _ Hp Hv Hc Hr).
  - intros std_starttag st a suffix empty attrs Hst.
    by apply starttag_anchor_plain with refnode.
Qed.

(** C4.  A reference whose kind is a registered object type and that the
    host resolves, on a build with project and version set: the node comes
    back with the marker class and the metadata, whose keys are exactly the
    four [data-] keys and whose values are the configured project and
    version and the document and anchor id of the object.  Nothing is asked
    of [hoverxref_auto_ref], which the object resolver never reads. *)
Theorem object_type_injects_metadata env fromdocname builder typ target node
    contnode refnode project version docname labelid log :
  typ ∈ object_types →
  getattr (config env) "hoverxref_project" = inr project →
  getattr (config env) "hoverxref_version" = inr version →
  truthy project = true →
  truthy version = true →
  std_resolve_obj_xref env fromdocname builder typ target node contnode
    = Some refnode →
  get_ref_obj_data node typ target = (docname, labelid) →
  let data := hover_metadata project version (PStr docname) (PStr labelid) in
  ∃ refnode',
    obj_xref env fromdocname builder typ target node contnode log
    = (inr (Some refnode'),
       log ++ [LogRecord INFO ":%s: _hoverxref injected: fromdocname=%s %s"
                 [ArgStr typ; ArgStr fromdocname; ArgDict data]])
    ∧ _hoverxref refnode' = Some data
    ∧ node_get refnode' "classes" = Some (PList ["hoverxref"])
    ∧ attributes refnode' = <["classes" := PList ["hoverxref"]]> (attributes refnode)
    ∧ dom data = ({["data-project"]} ∪ {["data-version"]} ∪ {["data-doc"]}
                    ∪ {["data-section"]} : gset string)
    ∧ data !! "data-project" = Some project
    ∧ data !! "data-version" = Some version
    ∧ data !! "data-doc" = Some (PStr docname)
    ∧ data !! "data-section" = Some (PStr labelid).
Proof.
  intros Ht Hp Hv Tp Tv Hr Hd data. subst data.
  destruct (hover_metadata_lookup project version (PStr docname) (PStr labelid))
    as (L1 & L2 & L3 & L4).
  eexists. split.
  { rewrite (obj_xref_registered _ _ _ _ _ _ _ _ _ _ _ _ _ Ht Hp Hv Hr Hd).
    by rewrite Tp, Tv. }
  split; [done|].
  split. { unfold node_get. simpl. by rewrite lookup_insert_eq. }
  split; [done|]. split; [apply hover_metadata_dom|]. done.
Qed.

(** C8.  Injection asked for by the system rather than by the role, on a
    build whose project or version is unset or empty: a reference of a
    kind other than [hoverxref] through the label resolver (whatever the
    auto-apply flag holds), and a reference of a registered object type
    through the object resolver, both come back as the host's node, and
    the log is left as it was, so no warning is written. *)
Theorem automatic_trigger_skips_silently env fromdocname builder
    typ target node contnode refnode
    otyp otarget onode ocontnode orefnode odocname olabelid
    project version log :
  getattr (config env) "hoverxref_project" = inr project →
  getattr (config env) "hoverxref_version" = inr version →
  truthy project && truthy version = false →
  typ ≠ "hoverxref" →
  std_resolve_ref_xref env fromdocname builder typ target node contnode
    = Some refnode →
  otyp ∈ object_types →
  std_resolve_obj_xref env fromdocname builder otyp otarget onode ocontnode
    = Some orefnode →
  get_ref_obj_data onode otyp otarget = (odocname, olabelid) →
  ref_xref env fromdocname builder typ target node contnode log
  = (inr (Some refnode), log)
  ∧ obj_xref env fromdocname builder otyp otarget onode ocontnode log
    = (inr (Some orefnode), log).
Proof.
  intros Hp Hv Hc Ht Hr Ho Hor Hd. split.
  - rewrite (ref_xref_unconfigured _ _ _ _ _ _ _ _ _ _ _ Hp Hv Hc Hr).
    apply String.eqb_neq in Ht. by rewrite Ht.
  - rewrite (obj_xref_registered _ _ _ _ _ _ _ _ _ _ _ _ _ Ho Hp Hv Hor Hd).
    by rewrite Hc.
Qed.

End DomainProperties.

(** ** The render interceptor *)

Section TranslatorProperties.

Variable std_starttag :
  gmap addr Element → addr → string → string → bool → gmap string pyval → string.

(** C5.  An [a] tag for a node that carries metadata: the host emitter
    receives the tag's attributes updated with the metadata, so every
    metadata entry is there, an entry of the tag under the same key is
    replaced, and the other keys are as they were; the tree is not
    touched.  For the dictionary the resolver builds these are the four
    [data-] entries. *)
Theorem anchor_merges_metadata st a n data suffix empty attrs :
  doctree st !! a = Some n →
  _hoverxref n = Some data →
  ∃ st',
    starttag std_starttag a "a" suffix empty attrs st
    = (inr (std_starttag (doctree st) a "a" suffix empty
              (dict_update attrs data)), st')
    ∧ doctree st' = doctree st
    ∧ (∀ k v, data !! k = Some v → dict_update attrs data !! k = Some v)
    ∧ (∀ k, data !! k = None → dict_update attrs data !! k = attrs !! k)
    ∧ ∀ project version docname labelid,
        data = hover_metadata project version docname labelid →
        dict_update attrs data !! "data-project" = Some project
        ∧ dict_update attrs data !! "data-version" = Some version
        ∧ dict_update attrs data !! "data-doc" = Some docname
        ∧ dict_update attrs data !! "data-section" = Some labelid.
Proof.
  intros Hn Hd. eexists. split.
  { by apply starttag_anchor_metadata with n. }
  split; [done|].
  split. { intros k v Hk. by rewrite dict_update_lookup, Hk. }
  split. { intros k Hk. by rewrite dict_update_lookup, Hk. }
  intros project version docname labelid ->.
  destruct (hover_metadata_lookup project version docname labelid)
    as (L1 & L2 & L3 & L4).
  by rewrite !dict_update_lookup, L1, L2, L3, L4.
Qed.

(** C6.  A [dt] tag for a node whose [ids] equal those of its parent: the
    node's [ids] are replaced by the empty list before the host emitter
    runs, which therefore sees the term without ids; the parent, like
    every other node, is as it was, and so are the attributes of the tag
    and the log. *)
Theorem term_duplicate_ids_cleared st a n p pn suffix empty attrs :
  doctree st !! a = Some n →
  parent n = Some p →
  p ≠ a →
  doctree st !! p = Some pn →
  py_get_eq (node_get pn "ids") (node_get n "ids") = true →
  ∃ st',
    starttag std_starttag a "dt" suffix empty attrs st
    = (inr (std_starttag (doctree st') a "dt" suffix empty attrs), st')
    ∧ doctree st' !! a = Some (replace_attr "ids" (PList []) n)
    ∧ (∀ n', doctree st' !! a = Some n' → node_get n' "ids" = Some (PList []))
    ∧ doctree st' !! p = Some pn
    ∧ (∀ b, b ≠ a → doctree st' !! b = doctree st !! b)
    ∧ render_log st' = render_log st.
Proof.
  intros Hn Hp Hne Hpn Heq.
  exists (mkRender (alter (replace_attr "ids" (PList [])) a (doctree st))
                   (render_log st)).
  assert (Ha : alter (replace_attr "ids" (PList [])) a (doctree st) !! a
               = Some (replace_attr "ids" (PList []) n)).
  { by rewrite lookup_alter_eq, Hn. }
  split.
  { unfold starttag, deref, parent_of, mutate, super_starttag. run_M.
    rewrite Hn, Hp. simpl. by rewrite Hpn, Heq. }
  simpl. split; [done|].
  split.
  { intros n' Hn'. rewrite Ha in Hn'. injection Hn' as <-.
    unfold node_get. simpl. by rewrite lookup_insert_eq. }
  split. { by rewrite lookup_alter_ne. }
  split; [|done]. intros b Hb. by rewrite lookup_alter_ne.
Qed.

End TranslatorProperties.

(** ** Asset templating *)

(** C7.  When the build ended with an exception, [copy_asset_files] leaves
    the output tree as it found it, whatever the host's [copy_asset] would
    do: it is not called. *)
Theorem failed_build_copies_nothing (FS : Type)
    (copy_asset : string → string → gmap string pyval → FS → FS)
    (module_file : string) (Exception : Type)
    (app : Sphinx) (e : Exception) (fs : FS) :
  copy_asset_files FS copy_asset module_file Exception app (Some e) fs = fs.
Proof. reflexivity. Qed.

(** After a successful build every asset is handed to [copy_asset], in the
    order of [ASSETS_FILES]. *)
Lemma successful_build_copies_assets (FS : Type)
    (copy_asset : string → string → gmap string pyval → FS → FS)
    (module_file : string) (Exception : Type) (app : Sphinx) (fs : FS) :
  copy_asset_files FS copy_asset module_file Exception app None fs
  = foldl (λ fs f,
             copy_asset (asset_source module_file f) (asset_destination app f)
               (build_context (app_config app)) fs)
          fs ASSETS_FILES.
Proof. reflexivity. Qed.

(** ** [setup] *)

Lemma setup_calls (environ : gmap string string) (version : string) :
  (setup environ version []).2
  = [ require_sphinx "1.8";
      add_config_value "hoverxref_project"
        (environ_get environ "READTHEDOCS_PROJECT") "html";
      add_config_value "hoverxref_version"
        (environ_get environ "READTHEDOCS_VERSION") "html";
      add_config_value "hoverxref_auto_ref" (PBool false) "env";
      add_config_value "hoverxref_tooltip_api_host"
        (PStr "https://readthedocs.org") "env";
      add_config_value "hoverxref_tooltip_theme"
        (PList ["tooltipster-shadow"; "tooltipster-shadow-custom"]) "env";
      add_config_value "hoverxref_tooltip_interactive" (PBool true) "env";
      add_config_value "hoverxref_tooltip_maxwidth" (PInt 450) "env";
      add_config_value "hoverxref_tooltip_animation" (PStr "fade") "env";
      add_config_value "hoverxref_tooltip_animation_duration" (PInt 0) "env";
      add_config_value "hoverxref_tooltip_content" (PStr "Loading...") "env";
      add_config_value "hoverxref_tooltip_class" (PStr "rst-content") "env";
      set_translator "html" HoverXRefHTMLTranslator true;
      set_translator "readthedocs" HoverXRefHTMLTranslator true;
      add_role_to_domain "std" "hoverxref" (mkXRefRole true nodes_inline true);
      add_domain HoverXRefStandardDomain true;
      connect "build-finished" copy_asset_files_callback;
      add_js_file "js/hoverxref.js";
      add_js_file "js/tooltipster.bundle.min.js";
      add_css_file "css/tooltipster.custom.css";
      add_css_file "css/tooltipster.bundle.min.css";
      add_css_file "css/tooltipster-sideTip-shadow.min.css" ].
Proof. reflexivity. Qed.

Lemma setup_returns (environ : gmap string string) (version : string) :
  (setup environ version []).1
  = inr (<["parallel_write_safe" := PBool true]>
           (<["parallel_read_safe" := PBool true]>
             (<["version" := PStr version]> ∅))).
Proof. reflexivity. Qed.

Lemma config_after_setup_eq (environ : gmap string string) (version : string)
    (c : Config) :
  config_after_setup environ version c
  = register_calls
      (map (λ '(name, dflt, rebuild), add_config_value name dflt rebuild)
         [ ("hoverxref_project", environ_get environ "READTHEDOCS_PROJECT", "html");
           ("hoverxref_version", environ_get environ "READTHEDOCS_VERSION", "html");
           ("hoverxref_auto_ref", PBool false, "env");
           ("hoverxref_tooltip_api_host", PStr "https://readthedocs.org", "env");
           ("hoverxref_tooltip_theme",
            PList ["tooltipster-shadow"; "tooltipster-shadow-custom"], "env");
           ("hoverxref_tooltip_interactive", PBool true, "env");
           ("hoverxref_tooltip_maxwidth", PInt 450, "env");
           ("hoverxref_tooltip_animation", PStr "fade", "env");
           ("hoverxref_tooltip_animation_duration", PInt 0, "env");
           ("hoverxref_tooltip_content", PStr "Loading...", "env");
           ("hoverxref_tooltip_class", PStr "rst-content", "env") ]) c.
Proof. reflexivity. Qed.

Lemma config_after_setup_dict (environ : gmap string string) (version : string)
    (c : Config) :
  __dict__ (config_after_setup environ version c) = __dict__ c.
Proof. reflexivity. Qed.

(** The three options the resolvers read, as registered by [setup]. *)
Lemma config_after_setup_values (environ : gmap string string)
    (version : string) (c : Config) :
  values (config_after_setup environ version c) !! "hoverxref_project"
  = Some (environ_get environ "READTHEDOCS_PROJECT", "html")
  ∧ values (config_after_setup environ version c) !! "hoverxref_version"
    = Some (environ_get environ "READTHEDOCS_VERSION", "html")
  ∧ values (config_after_setup environ version c) !! "hoverxref_auto_ref"
    = Some (PBool false, "env").
Proof.
  rewrite config_after_setup_eq. unfold register_calls. simpl.
  repeat split; by simplify_map_eq.
Qed.

(** C9, as the code has it.  [setup] registers exactly eleven options, each
    once, under the names of [hoverxref_options]: project, version,
    auto-apply flag, API host, theme, interactivity, maximum width,
    animation, animation duration, content and class. *)
Theorem setup_registers_eleven_options (environ : gmap string string)
    (version : string) :
  registered_options (setup environ version []).2 = hoverxref_options
  ∧ length (registered_options (setup environ version []).2) = 11
  ∧ NoDup (registered_options (setup environ version []).2).
Proof.
  split; [reflexivity|]. split; [reflexivity|].
  change (NoDup hoverxref_options).
  apply (bool_decide_unpack _). by vm_compute.
Qed.

(** C9, as the specification words it: the number of registered options is
    not nine. *)
Lemma setup_does_not_register_nine :
  length (registered_options (setup ∅ "0.1" []).2) ≠ 9.
Proof. vm_compute. discriminate. Qed.

(** C10.  [setup] registers the project and version options with the values
    of [READTHEDOCS_PROJECT] and [READTHEDOCS_VERSION] as defaults.  On a
    build where both variables are set and non-empty and the user sets
    neither option, the configuration check answers with the version, which
    is true, and a resolved [hoverxref] reference gets the metadata, under
    the four [data-] keys, with the values of the two variables as
    [data-project] and [data-version]. *)
Theorem readthedocs_environment_configures
    (Builder : Type)
    (std_resolve_ref_xref std_resolve_obj_xref :
       BuildEnvironment → string → Builder → string → string →
       Element → Element → option Element)
    (std_resolve_xref : resolver Builder → resolver Builder → resolver Builder)
    (get_ref_xref_data : Element → string → string * string * string)
    (get_ref_obj_data : Element → string → string → string * string)
    (object_types : list string)
    (environ : gmap string string) (pkg_version : string) (c : Config)
    (project version : string)
    fromdocname builder target node contnode refnode docname labelid sectname log :
  environ !! "READTHEDOCS_PROJECT" = Some project →
  environ !! "READTHEDOCS_VERSION" = Some version →
  project ≠ EmptyString →
  version ≠ EmptyString →
  __dict__ c !! "hoverxref_project" = None →
  __dict__ c !! "hoverxref_version" = None →
  let env := mkEnv (config_after_setup environ pkg_version c) in
  std_resolve_ref_xref env fromdocname builder "hoverxref" target node contnode
    = Some refnode →
  get_ref_xref_data node target = (docname, labelid, sectname) →
  let data :=
    hover_metadata (PStr project) (PStr version) (PStr docname) (PStr labelid) in
  In (add_config_value "hoverxref_project"
        (environ_get environ "READTHEDOCS_PROJECT") "html")
     (setup environ pkg_version []).2
  ∧ In (add_config_value "hoverxref_version"
          (environ_get environ "READTHEDOCS_VERSION") "html")
       (setup environ pkg_version []).2
  ∧ getattr (config env) "hoverxref_project" = inr (PStr project)
  ∧ getattr (config env) "hoverxref_version" = inr (PStr version)
  ∧ _is_hoverxref_configured env log = (inr (PStr version), log)
  ∧ truthy (PStr version) = true
  ∧ resolve_xref Builder std_resolve_ref_xref std_resolve_obj_xref
      std_resolve_xref get_ref_xref_data get_ref_obj_data object_types
      env fromdocname builder "hoverxref" target node contnode log
    = (inr (Some (set_hoverxref data
                    (replace_attr "classes" (PList ["hoverxref"]) refnode))),
       log ++ [LogRecord INFO ":ref: _hoverxref injected: fromdocname=%s %s"
                 [ArgStr fromdocname; ArgDict data]])
  ∧ dom data = ({["data-project"]} ∪ {["data-version"]} ∪ {["data-doc"]}
                ∪ {["data-section"]} : gset string)
  ∧ data !! "data-project" = Some (PStr project)
  ∧ data !! "data-version" = Some (PStr version)
  ∧ data !! "data-doc" = Some (PStr docname)
  ∧ data !! "data-section" = Some (PStr labelid).
Proof.
  intros Ep Ev Np Nv Dp Dv env Hr Hd data.
  destruct (config_after_setup_values environ pkg_version c) as (Vp & Vv & Va).
  assert (Tp : truthy (PStr project) = true).
  { simpl. apply String.eqb_neq in Np. by rewrite Np. }
  assert (Tv : truthy (PStr version) = true).
  { simpl. apply String.eqb_neq in Nv. by rewrite Nv. }
  assert (Gp : getattr (config env) "hoverxref_project" = inr (PStr project)).
  { unfold getattr. subst env. simpl config.
    rewrite config_after_setup_dict, Dp, Vp. unfold environ_get. by rewrite Ep. }
  assert (Gv : getattr (config env) "hoverxref_version" = inr (PStr version)).
  { unfold getattr. subst env. simpl config.
    rewrite config_after_setup_dict, Dv, Vv. unfold environ_get. by rewrite Ev. }
  assert (Ga : ∃ auto_ref, getattr (config env) "hoverxref_auto_ref" = inr auto_ref).
  { unfold getattr. subst env. simpl config.
    rewrite config_after_setup_dict, Va.
    destruct (__dict__ c !! "hoverxref_auto_ref"); eauto. }
  destruct Ga as [auto_ref Ga].
  split. { rewrite setup_calls. simpl. tauto. }
  split. { rewrite setup_calls. simpl. tauto. }
  do 2 (split; [done|]).
  split.
  { rewrite (is_configured_run _ _ _ _ Gp Gv). unfold py_and. by rewrite Tp. }
  split; [done|].
  split.
  { unfold resolve_xref. simpl String.eqb. cbv iota.
    eapply ref_xref_injects; eauto. by rewrite orb_true_r. }
  split; [apply hover_metadata_dom|].
  apply hover_metadata_lookup.
Qed.

(** ** The theorems at work on the small project *)

Lemma hover_role_injects_metadata_witness :
  ∃ refnode',
    resolve_xref () Example.host_ref Example.host_obj Example.host_dispatch
      Example.xref_data Example.obj_data ["confval"]
      (mkEnv Example.configured) "index" () "hoverxref" "section-i"
      Example.pending Example.pending []
    = (inr (Some refnode'),
       [LogRecord INFO ":ref: _hoverxref injected: fromdocname=%s %s"
          [ArgStr "index";
           ArgDict (hover_metadata (PStr "myproject") (PStr "myversion")
                      (PStr "chapter-i") (PStr "section-i"))]])
    ∧ _hoverxref refnode'
      = Some (hover_metadata (PStr "myproject") (PStr "myversion")
                (PStr "chapter-i") (PStr "section-i"))
    ∧ node_get refnode' "classes" = Some (PList ["hoverxref"]).
Proof.
  destruct (hover_role_injects_metadata () Example.host_ref Example.host_obj
              Example.host_dispatch Example.xref_data Example.obj_data ["confval"]
              (mkEnv Example.configured) "index" () "section-i"
              Example.pending Example.pending
              (Example.plain_reference "chapter-i" "section-i")
              (PStr "myproject") (PStr "myversion") (PBool false)
              "chapter-i" "section-i" "Section I" [])
    as (r & Hrun & Hdata & _ & _ & _ & _ & _ & Hcls & _);
    [vm_compute; reflexivity ..|].
  exists r. split; [exact Hrun|]. split; [exact Hdata | exact Hcls].
Defined.

Lemma auto_ref_injects_like_role_witness :
  ∃ refnode',
    resolve_xref () Example.host_ref Example.host_obj Example.host_dispatch
      Example.xref_data Example.obj_data ["confval"]
      (mkEnv Example.configured_auto) "index" () "ref" "section-i"
      Example.pending Example.pending []
    = (inr (Some refnode'),
       [LogRecord INFO ":ref: _hoverxref injected: fromdocname=%s %s"
          [ArgStr "index";
           ArgDict (hover_metadata (PStr "myproject") (PStr "myversion")
                      (PStr "chapter-i") (PStr "section-i"))]])
    ∧ _hoverxref refnode'
      = Some (hover_metadata (PStr "myproject") (PStr "myversion")
                (PStr "chapter-i") (PStr "section-i"))
    ∧ hover_metadata (PStr "myproject") (PStr "myversion")
        (PStr "chapter-i") (PStr "section-i") !! "data-doc"
      = Some (PStr "chapter-i").
Proof.
  destruct (auto_ref_injects_like_role () Example.host_ref Example.host_obj
              Example.host_dispatch Example.xref_data Example.obj_data ["confval"]
              (mkEnv Example.configured_auto) "index" () "ref" "section-i"
              Example.pending Example.pending
              (Example.plain_reference "chapter-i" "section-i")
              (PStr "myproject") (PStr "myversion") (PBool true)
              "chapter-i" "section-i" "Section I" [])
    as (r & Hrun & _ & Hdata & _ & _ & _ & Hdoc & _);
    [discriminate | reflexivity | vm_compute; reflexivity ..|].
  exists r. split; [exact Hrun|]. split; [exact Hdata | exact Hdoc].
Defined.

(** C2, as the specification words it, fails for a kind that the host hands
    to the object resolver: on the build with the auto-apply flag on and
    project and version set, a [confval] reference whose type is not
    registered comes back as the host's node, without metadata and without
    the marker class, and nothing is logged. *)
Lemma auto_ref_leaves_object_reference :
  "confval" ≠ "hoverxref"
  ∧ getattr Example.configured_auto "hoverxref_project" = inr (PStr "myproject")
  ∧ getattr Example.configured_auto "hoverxref_version" = inr (PStr "myversion")
  ∧ getattr Example.configured_auto "hoverxref_auto_ref" = inr (PBool true)
  ∧ resolve_xref () Example.host_ref Example.host_obj Example.host_dispatch
      Example.xref_data Example.obj_data []
      (mkEnv Example.configured_auto) "index" () "confval" "conf-title"
      Example.pending Example.pending []
    = (inr (Some (Example.plain_reference "configuration" "confval-conf-title")),
       [])
  ∧ _resolve_obj_xref () Example.host_obj Example.obj_data []
      (mkEnv Example.configured_auto) "index" () "confval" "conf-title"
      Example.pending Example.pending []
    = (inr (Some (Example.plain_reference "configuration" "confval-conf-title")),
       [])
  ∧ _hoverxref (Example.plain_reference "configuration" "confval-conf-title")
    = None
  ∧ node_get (Example.plain_reference "configuration" "confval-conf-title")
      "classes" = Some (PList []).
Proof.
  split; [discriminate|]. repeat split; vm_compute; reflexivity.
Qed.

Lemma hover_role_unconfigured_warns_witness :
  resolve_xref () Example.host_ref Example.host_obj Example.host_dispatch
    Example.xref_data Example.obj_data ["confval"]
    (mkEnv Example.unconfigured) "index" () "hoverxref" "section-i"
    Example.pending Example.pending []
  = (inr (Some (Example.plain_reference "chapter-i" "section-i")),
     [LogRecord WARNING "hoverxref role is not fully configured." []]).
Proof.
  destruct (hover_role_unconfigured_warns () Example.host_ref Example.host_obj
              Example.host_dispatch Example.xref_data Example.obj_data ["confval"]
              (mkEnv Example.unconfigured) "index" () "section-i"
              Example.pending Example.pending
              (Example.plain_reference "chapter-i" "section-i")
              PNone PNone [])
    as (Hrun & _);
    [vm_compute; reflexivity ..|].
  exact Hrun.
Defined.

Lemma object_type_injects_metadata_witness :
  ∃ refnode',
    _resolve_obj_xref () Example.host_obj Example.obj_data ["confval"]
      (mkEnv Example.configured) "index" () "confval" "conf-title"
      Example.pending Example.pending []
    = (inr (Some refnode'),
       [LogRecord INFO ":%s: _hoverxref injected: fromdocname=%s %s"
          [ArgStr "confval"; ArgStr "index";
           ArgDict (hover_metadata (PStr "myproject") (PStr "myversion")
                      (PStr "configuration") (PStr "confval-conf-title"))]])
    ∧ _hoverxref refnode'
      = Some (hover_metadata (PStr "myproject") (PStr "myversion")
                (PStr "configuration") (PStr "confval-conf-title"))
    ∧ hover_metadata (PStr "myproject") (PStr "myversion")
        (PStr "configuration") (PStr "confval-conf-title") !! "data-section"
      = Some (PStr "confval-conf-title").
Proof.
  destruct (object_type_injects_metadata () Example.host_obj Example.obj_data
              ["confval"]
              (mkEnv Example.configured) "index" () "confval" "conf-title"
              Example.pending Example.pending
              (Example.plain_reference "configuration" "confval-conf-title")
              (PStr "myproject") (PStr "myversion")
              "configuration" "confval-conf-title" [])
    as (r & Hrun & Hdata & _ & _ & _ & _ & _ & _ & Hsec);
    [apply list_elem_of_here | vm_compute; reflexivity ..|].
  exists r. split; [exact Hrun|]. split; [exact Hdata | exact Hsec].
Defined.

Lemma automatic_trigger_skips_silently_witness :
  _resolve_ref_xref () Example.host_ref Example.xref_data
    (mkEnv Example.unconfigured) "index" () "ref" "section-i"
    Example.pending Example.pending []
  = (inr (Some (Example.plain_reference "chapter-i" "section-i")), [])
  ∧ _resolve_obj_xref () Example.host_obj Example.obj_data ["confval"]
      (mkEnv Example.unconfigured) "index" () "confval" "conf-title"
      Example.pending Example.pending []
    = (inr (Some (Example.plain_reference "configuration" "confval-conf-title")),
       []).
Proof.
  apply (automatic_trigger_skips_silently () Example.host_ref Example.host_obj
           Example.xref_data Example.obj_data ["confval"]
           (mkEnv Example.unconfigured) "index" () "ref" "section-i"
           Example.pending Example.pending
           (Example.plain_reference "chapter-i" "section-i")
           "confval" "conf-title" Example.pending Example.pending
           (Example.plain_reference "configuration" "confval-conf-title")
           "configuration" "confval-conf-title" PNone PNone []);
    [ vm_compute; reflexivity | vm_compute; reflexivity | reflexivity
    | discriminate | vm_compute; reflexivity | apply list_elem_of_here
    | vm_compute; reflexivity | vm_compute; reflexivity ].
Defined.

Lemma anchor_merges_metadata_witness :
  ∃ st',
    starttag Example.host_starttag 3%positive "a" EmptyString false
      (<["data-doc" := PStr "stale"]> (<["href" := PStr "chapter-i.html#section-i"]> ∅))
      (mkRender Example.tree [])
    = (inr "<a>", st')
    ∧ dict_update
        (<["data-doc" := PStr "stale"]>
           (<["href" := PStr "chapter-i.html#section-i"]> ∅))
        (hover_metadata (PStr "myproject") (PStr "myversion")
           (PStr "chapter-i") (PStr "section-i")) !! "data-doc"
      = Some (PStr "chapter-i").
Proof.
  destruct (anchor_merges_metadata Example.host_starttag
              (mkRender Example.tree []) 3%positive
              (mkElement (Some 1%positive)
                 (<["classes" := PList ["hoverxref"]]> ∅)
                 (Some (hover_metadata (PStr "myproject") (PStr "myversion")
                          (PStr "chapter-i") (PStr "section-i"))))
              (hover_metadata (PStr "myproject") (PStr "myversion")
                 (PStr "chapter-i") (PStr "section-i"))
              EmptyString false
              (<["data-doc" := PStr "stale"]>
                 (<["href" := PStr "chapter-i.html#section-i"]> ∅)))
    as (st' & Hrun & _ & Hwin & _);
    [vm_compute; reflexivity ..|].
  exists st'. split; [exact Hrun|].
  apply Hwin. vm_compute. reflexivity.
Defined.

Lemma term_duplicate_ids_cleared_witness :
  ∃ st',
    (starttag Example.host_starttag 2%positive "dt" EmptyString false ∅
       (mkRender Example.tree [])).2 = st'
    ∧ doctree st' !! 2%positive
      = Some (mkElement (Some 1%positive) (<["ids" := PList []]> ∅) None)
    ∧ doctree st' !! 1%positive
      = Some (mkElement None (<["ids" := PList ["confval-conf-title"]]> ∅) None).
Proof.
  destruct (term_duplicate_ids_cleared Example.host_starttag
              (mkRender Example.tree []) 2%positive
              (mkElement (Some 1%positive)
                 (<["ids" := PList ["confval-conf-title"]]> ∅) None)
              1%positive
              (mkElement None (<["ids" := PList ["confval-conf-title"]]> ∅) None)
              EmptyString false ∅)
    as (st' & Hrun & Hnode & _ & Hparent & _);
    [vm_compute; reflexivity | reflexivity | discriminate
    | vm_compute; reflexivity | vm_compute; reflexivity |].
  exists st'. split; [by rewrite Hrun|]. split; [|exact Hparent].
  rewrite Hnode. vm_compute. reflexivity.
Defined.

Lemma readthedocs_environment_configures_witness :
  resolve_xref () Example.host_ref Example.host_obj Example.host_dispatch
    Example.xref_data Example.obj_data ["confval"]
    (mkEnv (config_after_setup Example.rtd_environ "0.1" (mkConfig ∅ ∅)))
    "index" () "hoverxref" "section-i" Example.pending Example.pending []
  = (inr (Some (set_hoverxref
                  (hover_metadata (PStr "myproject") (PStr "latest")
                     (PStr "chapter-i") (PStr "section-i"))
                  (replace_attr "classes" (PList ["hoverxref"])
                     (Example.plain_reference "chapter-i" "section-i")))),
     [LogRecord INFO ":ref: _hoverxref injected: fromdocname=%s %s"
        [ArgStr "index";
         ArgDict (hover_metadata (PStr "myproject") (PStr "latest")
                    (PStr "chapter-i") (PStr "section-i"))]])
  ∧ hover_metadata (PStr "myproject") (PStr "latest")
      (PStr "chapter-i") (PStr "section-i") !! "data-project"
    = Some (PStr "myproject")
  ∧ hover_metadata (PStr "myproject") (PStr "latest")
      (PStr "chapter-i") (PStr "section-i") !! "data-version"
    = Some (PStr "latest").
Proof.
  destruct (readthedocs_environment_configures () Example.host_ref
              Example.host_obj Example.host_dispatch Example.xref_data
              Example.obj_data ["confval"] Example.rtd_environ "0.1"
              (mkConfig ∅ ∅) "myproject" "latest"
              "index" () "section-i" Example.pending Example.pending
              (Example.plain_reference "chapter-i" "section-i")
              "chapter-i" "section-i" "Section I" [])
    as (_ & _ & _ & _ & _ & _ & Hrun & _ & Hproject & Hversion & _);
    [ vm_compute; reflexivity | vm_compute; reflexivity
    | discriminate | discriminate
    | vm_compute; reflexivity | vm_compute; reflexivity
    | vm_compute; reflexivity | vm_compute; reflexivity |].
  split; [exact Hrun|]. split; [exact Hproject | exact Hversion].
Defined.

(** ** Scenarios of the test suite *)

(** A plain [:ref:] on a configured build without the auto-apply flag keeps
    the host's node, and nothing is logged. *)
Example plain_ref_untouched :
  _resolve_ref_xref () Example.host_ref Example.xref_data
    (mkEnv Example.configured) "index" () "ref" "section-i"
    Example.pending Example.pending []
  = (inr (Some (Example.plain_reference "chapter-i" "section-i")), []).
Proof. vm_compute. reflexivity. Qed.

(** A [hoverxref] reference to a label the host does not know gives no
    node, and no warning either. *)
Example unresolved_reference :
  resolve_xref () Example.host_ref Example.host_obj Example.host_dispatch
    Example.xref_data Example.obj_data ["confval"]
    (mkEnv Example.unconfigured) "index" () "hoverxref" "missing"
    Example.pending Example.pending []
  = (inr None, []).
Proof. vm_compute. reflexivity. Qed.

(** An object reference of a type that is not registered passes through. *)
Example unregistered_object_type :
  _resolve_obj_xref () Example.host_obj Example.obj_data []
    (mkEnv Example.configured_auto) "index" () "confval" "conf-title"
    Example.pending Example.pending []
  = (inr (Some (Example.plain_reference "configuration" "confval-conf-title")),
     []).
Proof. vm_compute. reflexivity. Qed.

(** The term of the definition list loses its id, the list keeps it. *)
Example term_rendered_without_id :
  (starttag Example.host_starttag 2%positive "dt" EmptyString false ∅
     (mkRender Example.tree [])).1 = inr "<dt>"
  ∧ (starttag Example.host_starttag 1%positive "dl" EmptyString false ∅
       (mkRender Example.tree [])).1 = inr "<dl id=confval-conf-title>".
Proof. split; vm_compute; reflexivity. Qed.

(** A term whose ids differ from those of its parent keeps them. *)
Example term_with_own_id_kept :
  (starttag Example.host_starttag 2%positive "dt" EmptyString false ∅
     (mkRender (<[1%positive := mkElement None (<["ids" := PList ["other"]]> ∅) None]>
                  Example.tree) [])).1
  = inr "<dt id=confval-conf-title>".
Proof. vm_compute. reflexivity. Qed.

(** After a successful build the five assets go to the [js] and [css]
    directories of the output tree, the template under its own name. *)
Example assets_copied :
  copy_asset_files (list (string * string))
    (λ source destination _ fs, fs ++ [(source, destination)])
    "/pkg/hoverxref/extension.py" ()
    (mkSphinx Example.configured "/out") None []
  = [ ("/pkg/hoverxref/_static/js/hoverxref.js_t", "/out/_static/js");
      ("/pkg/hoverxref/_static/js/tooltipster.bundle.min.js", "/out/_static/js");
      ("/pkg/hoverxref/_static/css/tooltipster.custom.css", "/out/_static/css");
      ("/pkg/hoverxref/_static/css/tooltipster.bundle.min.css", "/out/_static/css");
      ("/pkg/hoverxref/_static/css/tooltipster-sideTip-shadow.min.css",
       "/out/_static/css") ].
Proof. vm_compute. reflexivity. Qed.

(** The template context holds the defaults, overwritten by what [conf.py]
    sets. *)
Example context_of_configured_build :
  build_context Example.configured !! "hoverxref_project" = Some (PStr "myproject")
  ∧ build_context Example.configured !! "hoverxref_tooltip_maxwidth"
    = Some (PInt 450)
  ∧ build_context Example.configured !! "hoverxref_tooltip_theme"
    = Some (PList ["tooltipster-shadow"; "tooltipster-shadow-custom"])
  ∧ build_context Example.unconfigured !! "hoverxref_project" = Some PNone.
Proof. repeat split; vm_compute; reflexivity. Qed.

(** * Further properties of the module *)

(** ** Options registered by [setup] are readable *)

Lemma getattr_after_setup (environ : gmap string string) (version : string)
    (c : Config) :
  (∃ v, getattr (config_after_setup environ version c) "hoverxref_project" = inr v)
  ∧ (∃ v, getattr (config_after_setup environ version c) "hoverxref_version" = inr v)
  ∧ (∃ v, getattr (config_after_setup environ version c) "hoverxref_auto_ref" = inr v).
Proof.
  destruct (config_after_setup_values environ version c) as (Vp & Vv & Va).
  unfold getattr. rewrite config_after_setup_dict, Vp, Vv, Va.
  repeat split; case_match; eauto.
Qed.

Section ResolverBehaviour.

Variable Builder : Type.
Variable std_resolve_ref_xref std_resolve_obj_xref :
  BuildEnvironment → string → Builder → string → string →
  Element → Element → option Element.
Variable std_resolve_xref : resolver Builder → resolver Builder → resolver Builder.
Variable get_ref_xref_data : Element → string → string * string * string.
Variable get_ref_obj_data : Element → string → string → string * string.
Variable object_types : list string.

Local Abbreviation ref_xref :=
  (_resolve_ref_xref Builder std_resolve_ref_xref get_ref_xref_data).
Local Abbreviation obj_xref :=
  (_resolve_obj_xref Builder std_resolve_obj_xref get_ref_obj_data object_types).
Local Abbreviation xref :=
  (resolve_xref Builder std_resolve_ref_xref std_resolve_obj_xref
     std_resolve_xref get_ref_xref_data get_ref_obj_data object_types).

(** The label resolver on a configured build when neither the role nor the
    flag asks for the metadata. *)
Lemma ref_xref_declined env fromdocname builder typ target node contnode
    refnode project version auto_ref log :
  getattr (config env) "hoverxref_project" = inr project →
  getattr (config env) "hoverxref_version" = inr version →
  truthy project && truthy version = true →
  getattr (config env) "hoverxref_auto_ref" = inr auto_ref →
  truthy auto_ref || String.eqb typ "hoverxref" = false →
  std_resolve_ref_xref env fromdocname builder typ target node contnode
    = Some refnode →
  ref_xref env fromdocname builder typ target node contnode log
  = (inr (Some refnode), log).
Proof.
  intros Hp Hv Hc Ha Hw Hr. unfold _resolve_ref_xref. rewrite Hr.
  rewrite (bind_returns _ _ _ _ _ (is_configured_run _ _ _ _ Hp Hv)).
  rewrite py_and_truthy, Hc. simpl.
  unfold mbind at 1, M_bind at 1. unfold mret at 1, M_ret at 1.
  rewrite (bind_returns _ _ _ _ _ (is_configured_run _ _ _ _ Hp Hv)).
  rewrite py_and_truthy, Hc. simpl.
  run_M. by rewrite Ha, Hw.
Qed.

(** X1.  A reference the host does not resolve: both resolvers, and
    [resolve_xref] for the [hoverxref] role, answer [None] and log nothing.
    The configuration is not read, so this holds on any configuration, also
    one where the options were never registered. *)
Theorem unresolved_reference_passes_through env fromdocname builder typ target
    node contnode log :
  (std_resolve_ref_xref env fromdocname builder typ target node contnode = None →
   _resolve_ref_xref Builder std_resolve_ref_xref get_ref_xref_data
     env fromdocname builder typ target node contnode log = (inr None, log))
  ∧ (std_resolve_obj_xref env fromdocname builder typ target node contnode = None →
     _resolve_obj_xref Builder std_resolve_obj_xref get_ref_obj_data object_types
     env fromdocname builder typ target node contnode log = (inr None, log))
  ∧ (std_resolve_ref_xref env fromdocname builder "hoverxref" target node contnode
       = None →
     resolve_xref Builder std_resolve_ref_xref std_resolve_obj_xref
       std_resolve_xref get_ref_xref_data get_ref_obj_data object_types
       env fromdocname builder "hoverxref" target node contnode log
     = (inr None, log)).
Proof.
  repeat split; intros H.
  - unfold _resolve_ref_xref. by rewrite H.
  - unfold _resolve_obj_xref. by rewrite H.
  - unfold resolve_xref, _resolve_ref_xref. simpl. by rewrite H.
Qed.

(** X2.  A reference of a kind other than [hoverxref] through the label
    resolver while [hoverxref_auto_ref] is false: the host's node comes back
    as it is and nothing is logged, whatever project and version hold. *)
Theorem auto_ref_off_leaves_reference env fromdocname builder typ target node
    contnode refnode project version auto_ref log :
  typ ≠ "hoverxref" →
  getattr (config env) "hoverxref_project" = inr project →
  getattr (config env) "hoverxref_version" = inr version →
  getattr (config env) "hoverxref_auto_ref" = inr auto_ref →
  truthy auto_ref = false →
  std_resolve_ref_xref env fromdocname builder typ target node contnode
    = Some refnode →
  ref_xref env fromdocname builder typ target node contnode log
  = (inr (Some refnode), log).
Proof.
  intros Ht Hp Hv Ha Ta Hr. apply String.eqb_neq in Ht.
  destruct (truthy project && truthy version) eqn:Hc.
  - eapply ref_xref_declined; eauto. by rewrite Ta, Ht.
  - rewrite (ref_xref_unconfigured _ _ _ _ _ _ _ _ _ _ _ _ _ _ Hp Hv Hc Hr).
    by rewrite Ht.
Qed.

(** X3.  An object reference whose kind is not in [registry.object_types]:
    the object resolver answers exactly what the host answers and logs
    nothing; the configuration is not read. *)
Theorem unregistered_object_type_passes_through env fromdocname builder typ
    target node contnode log :
  typ ∉ object_types →
  _resolve_obj_xref Builder std_resolve_obj_xref get_ref_obj_data object_types
     env fromdocname builder typ target node contnode log
  = (inr (std_resolve_obj_xref env fromdocname builder typ target node contnode),
     log).
Proof.
  intros Ht. unfold _resolve_obj_xref.
  destruct (std_resolve_obj_xref _ _ _ _ _ _ _); [|done].
  by rewrite bool_decide_eq_false_2.
Qed.

(** X4.  On the configuration [setup] leaves, whatever the environment and
    the user's values, reading the three options of the resolvers does not
    raise: project and version read as the user's value when there is one
    and as the value of the Read the Docs variable otherwise ([None] when
    that is unset), the auto-apply flag as the user's value or [False].  So
    the configuration check, which calls nothing else, returns, with
    [project and version] of these values. *)
Theorem options_readable_after_setup (environ : gmap string string)
    (pkg_version : string) (c : Config) (log : Log) :
  let cfg := config_after_setup environ pkg_version c in
  let project := default (environ_get environ "READTHEDOCS_PROJECT")
                   (__dict__ c !! "hoverxref_project") in
  let version := default (environ_get environ "READTHEDOCS_VERSION")
                   (__dict__ c !! "hoverxref_version") in
  getattr cfg "hoverxref_project" = inr project
  ∧ getattr cfg "hoverxref_version" = inr version
  ∧ getattr cfg "hoverxref_auto_ref"
    = inr (default (PBool false) (__dict__ c !! "hoverxref_auto_ref"))
  ∧ _is_hoverxref_configured (mkEnv cfg) log = (inr (py_and project version), log).
Proof.
  intros cfg project version.
  destruct (config_after_setup_values environ pkg_version c) as (Vp & Vv & Va).
  assert (Gp : getattr cfg "hoverxref_project" = inr project).
  { unfold getattr, cfg, project.
    rewrite config_after_setup_dict, Vp. by case_match. }
  assert (Gv : getattr cfg "hoverxref_version" = inr version).
  { unfold getattr, cfg, version.
    rewrite config_after_setup_dict, Vv. by case_match. }
  split; [exact Gp|]. split; [exact Gv|]. split.
  - unfold getattr, cfg. rewrite config_after_setup_dict, Va. by case_match.
  - by apply is_configured_run.
Qed.

(** X5.  Whatever a resolver returns for a reference the host resolved, it
    is the host's node up to the classes and the metadata: the parent and
    every attribute other than [classes] (the target URI among them) are
    the host's, and either the node is untouched or its classes are exactly
    the marker and it carries metadata. *)
Theorem resolved_node_keeps_host_attributes env fromdocname builder
    typ target node contnode refnode r
    otyp otarget onode ocontnode orefnode r' log :
  std_resolve_ref_xref env fromdocname builder typ target node contnode
    = Some refnode →
  (ref_xref env fromdocname builder typ target node contnode log).1
    = inr (Some r) →
  std_resolve_obj_xref env fromdocname builder otyp otarget onode ocontnode
    = Some orefnode →
  (obj_xref env fromdocname builder otyp otarget onode ocontnode log).1
    = inr (Some r') →
  (parent r = parent refnode
   ∧ (∀ k, k ≠ "classes" → attributes r !! k = attributes refnode !! k)
   ∧ (r = refnode
      ∨ node_get r "classes" = Some (PList ["hoverxref"])
        ∧ is_Some (_hoverxref r)))
  ∧ (parent r' = parent orefnode
     ∧ (∀ k, k ≠ "classes" → attributes r' !! k = attributes orefnode !! k)
     ∧ (r' = orefnode
        ∨ node_get r' "classes" = Some (PList ["hoverxref"])
          ∧ is_Some (_hoverxref r'))).
Proof.
  intros Hr Hrun Hor Horun. split.
  - clear Hor Horun. revert Hrun.
    unfold _resolve_ref_xref. rewrite Hr. clear Hr.
    unfold _is_hoverxref_configured, _inject_hoverxref_data, get_hoverxref.
    run_M.
    destruct (getattr (config env) "hoverxref_project"); simpl; [done|].
    destruct (getattr (config env) "hoverxref_version"); simpl; [done|].
    destruct (truthy (py_and _ _)); simpl.
    + destruct (String.eqb typ "hoverxref"); simpl;
        (destruct (getattr (config env) "hoverxref_auto_ref"); simpl; [done|]);
        try destruct (truthy _); simpl;
        try destruct (get_ref_xref_data node target) as [[? ?] ?]; simpl;
        intros [= <-]; simpl;
        repeat split; eauto; try (intros k Hk; by rewrite lookup_insert_ne);
        right; unfold node_get; simpl; by rewrite lookup_insert_eq.
    + destruct (String.eqb typ "hoverxref"); simpl;
        intros [= <-]; repeat split; eauto.
  - clear Hr Hrun. revert Horun.
    unfold _resolve_obj_xref. rewrite Hor. clear Hor.
    unfold _is_hoverxref_configured, _inject_hoverxref_data, get_hoverxref.
    run_M.
    destruct (bool_decide (otyp ∈ object_types)); simpl;
      [|intros [= <-]; repeat split; eauto].
    destruct (get_ref_obj_data onode otyp otarget) as [? ?]; simpl.
    destruct (getattr (config env) "hoverxref_project"); simpl; [done|].
    destruct (getattr (config env) "hoverxref_version"); simpl; [done|].
    destruct (truthy (py_and _ _)); simpl;
      intros [= <-]; simpl;
      repeat split; eauto; try (intros k Hk; by rewrite lookup_insert_ne);
      right; unfold node_get; simpl; by rewrite lookup_insert_eq.
Qed.

(** X6.  A call of a resolver only appends to the log, and at most one
    record: a reference never gets both the warning and the record of an
    injection.  This holds on every configuration, also when reading an
    option raises. *)
Theorem resolver_logs_at_most_one_record env fromdocname builder typ target
    node contnode log :
  (∃ records,
     (_resolve_ref_xref Builder std_resolve_ref_xref get_ref_xref_data
     env fromdocname builder typ target node contnode log).2
     = log ++ records ∧ (List.length records ≤ 1)%nat)
  ∧ (∃ records,
       (_resolve_obj_xref Builder std_resolve_obj_xref get_ref_obj_data object_types
     env fromdocname builder typ target node contnode log).2
       = log ++ records ∧ (List.length records ≤ 1)%nat).
Proof.
  assert (Hnone : ∃ records : Log, log = log ++ records ∧ (List.length records ≤ 1)%nat).
  { exists []. split; [by rewrite app_nil_r | simpl; lia]. }
  assert (Hone : ∀ x : log_record,
             ∃ records : Log, log ++ [x] = log ++ records ∧ (List.length records ≤ 1)%nat).
  { intros x. exists [x]. split; [done | simpl; lia]. }
  split.
  - unfold _resolve_ref_xref, _is_hoverxref_configured, _inject_hoverxref_data,
      get_hoverxref. run_M.
    destruct (std_resolve_ref_xref _ _ _ _ _ _ _); simpl; [|done].
    destruct (getattr (config env) "hoverxref_project"); simpl; [done|].
    destruct (getattr (config env) "hoverxref_version"); simpl; [done|].
    destruct (truthy (py_and _ _)); simpl.
    + destruct (String.eqb typ "hoverxref"); simpl;
        (destruct (getattr (config env) "hoverxref_auto_ref"); simpl; [done|]);
        try destruct (truthy _); simpl;
        try destruct (get_ref_xref_data node target) as [[? ?] ?]; simpl; done.
    + destruct (String.eqb typ "hoverxref"); simpl; done.
  - unfold _resolve_obj_xref, _is_hoverxref_configured, _inject_hoverxref_data,
      get_hoverxref. run_M.
    destruct (std_resolve_obj_xref _ _ _ _ _ _ _); simpl; [|done].
    destruct (bool_decide (typ ∈ object_types)); simpl; [|done].
    destruct (get_ref_obj_data node typ target) as [? ?]; simpl.
    destruct (getattr (config env) "hoverxref_project"); simpl; [done|].
    destruct (getattr (config env) "hoverxref_version"); simpl; [done|].
    destruct (truthy (py_and _ _)); simpl; done.
Qed.

(** X7.  On a build whose project or version is unset or empty, a call that
    issues no warning changes nothing: for every kind other than
    [hoverxref], and for a [hoverxref] reference the host does not resolve,
    the label resolver answers exactly what the host answers and logs
    nothing, and so does the object resolver for every kind, registered or
    not. *)
Theorem unconfigured_build_returns_host_nodes env fromdocname builder typ
    target node contnode project version log :
  getattr (config env) "hoverxref_project" = inr project →
  getattr (config env) "hoverxref_version" = inr version →
  truthy project && truthy version = false →
  typ ≠ "hoverxref"
  ∨ std_resolve_ref_xref env fromdocname builder typ target node contnode
    = None →
  ref_xref env fromdocname builder typ target node contnode log
  = (inr (std_resolve_ref_xref env fromdocname builder typ target node contnode),
     log)
  ∧ obj_xref env fromdocname builder typ target node contnode log
    = (inr (std_resolve_obj_xref env fromdocname builder typ target
              node contnode), log).
Proof.
  intros Hp Hv Hc Hquiet. split.
  - destruct (std_resolve_ref_xref env fromdocname builder typ target
                node contnode) as [refnode|] eqn:Hr.
    + rewrite (ref_xref_unconfigured _ _ _ _ _ _ _ _ _ _ _ _ _ _ Hp Hv Hc Hr).
      destruct Hquiet as [Ht|Hnone]; [|done].
      apply String.eqb_neq in Ht. by rewrite Ht.
    + unfold _resolve_ref_xref. by rewrite Hr.
  - unfold _resolve_obj_xref, _is_hoverxref_configured. run_M.
    destruct (std_resolve_obj_xref _ _ _ _ _ _ _); simpl; [|done].
    destruct (bool_decide (typ ∈ object_types)); simpl; [|done].
    destruct (get_ref_obj_data node typ target) as [? ?]; simpl.
    rewrite Hp, Hv. simpl. by rewrite py_and_truthy, Hc.
Qed.

(** X8.  Injecting into a node that already went through an injection
    replaces what the first one left: the result is that of the second
    injection alone, so the marker class is not repeated and the metadata is
    not merged. *)
Theorem injection_replaces_earlier_injection env refnode
    docname labelid docname' labelid' project version log :
  getattr (config env) "hoverxref_project" = inr project →
  getattr (config env) "hoverxref_version" = inr version →
  ∃ once,
    _inject_hoverxref_data env refnode docname labelid log = (inr once, log)
    ∧ _inject_hoverxref_data env once docname' labelid' log
      = _inject_hoverxref_data env refnode docname' labelid' log
    ∧ _inject_hoverxref_data env once docname labelid log = (inr once, log).
Proof.
  intros Hp Hv. eexists. split; [by apply inject_run|].
  rewrite !(inject_run _ _ _ _ _ _ _ Hp Hv).
  unfold set_hoverxref, replace_attr. simpl.
  by rewrite !insert_insert_eq.
Qed.

(** X9.  A value of the user wins over the environment: when [conf.py]
    sets project and version, non-empty, a resolved [hoverxref] reference
    gets these two as [data-project] and [data-version] of its metadata,
    whose keys are the four [data-] keys, whatever [READTHEDOCS_PROJECT]
    and [READTHEDOCS_VERSION] hold. *)
Theorem user_values_override_environment
    (environ : gmap string string) (pkg_version : string) (c : Config)
    (project version : pyval)
    fromdocname builder target node contnode refnode docname labelid sectname log :
  __dict__ c !! "hoverxref_project" = Some project →
  __dict__ c !! "hoverxref_version" = Some version →
  truthy project = true →
  truthy version = true →
  std_resolve_ref_xref (mkEnv (config_after_setup environ pkg_version c))
    fromdocname builder "hoverxref" target node contnode = Some refnode →
  get_ref_xref_data node target = (docname, labelid, sectname) →
  xref (mkEnv (config_after_setup environ pkg_version c))
    fromdocname builder "hoverxref" target node contnode log
  = (inr (Some (set_hoverxref
                  (hover_metadata project version (PStr docname) (PStr labelid))
                  (replace_attr "classes" (PList ["hoverxref"]) refnode))),
     log ++ [LogRecord INFO ":ref: _hoverxref injected: fromdocname=%s %s"
               [ArgStr fromdocname;
                ArgDict (hover_metadata project version
                           (PStr docname) (PStr labelid))]])
  ∧ dom (hover_metadata project version (PStr docname) (PStr labelid))
    = ({["data-project"]} ∪ {["data-version"]} ∪ {["data-doc"]}
       ∪ {["data-section"]} : gset string)
  ∧ hover_metadata project version (PStr docname) (PStr labelid)
      !! "data-project" = Some project
  ∧ hover_metadata project version (PStr docname) (PStr labelid)
      !! "data-version" = Some version
  ∧ hover_metadata project version (PStr docname) (PStr labelid)
      !! "data-doc" = Some (PStr docname)
  ∧ hover_metadata project version (PStr docname) (PStr labelid)
      !! "data-section" = Some (PStr labelid).
Proof.
  intros Dp Dv Tp Tv Hr Hd.
  destruct (getattr_after_setup environ pkg_version c) as (_ & _ & [a Ha]).
  split; [|split; [apply hover_metadata_dom | apply hover_metadata_lookup]].
  unfold resolve_xref. simpl String.eqb. cbv iota.
  eapply ref_xref_injects; eauto.
  - unfold getattr. simpl config. by rewrite config_after_setup_dict, Dp.
  - unfold getattr. simpl config. by rewrite config_after_setup_dict, Dv.
  - by rewrite orb_true_r.
Qed.

End ResolverBehaviour.

(** ** Further properties of the render interceptor *)

Lemma replace_attr_idempotent (attr : string) (value : pyval) (n : Element) :
  replace_attr attr value (replace_attr attr value n) = replace_attr attr value n.
Proof. unfold replace_attr. simpl. by rewrite insert_insert_eq. Qed.

Lemma alter_idempotent (f : Element → Element) (a : addr)
    (t : gmap addr Element) :
  (∀ n, f (f n) = f n) → alter f a (alter f a t) = alter f a t.
Proof.
  intros Hf. apply map_eq. intros b. destruct (decide (a = b)) as [->|Hne].
  - rewrite !lookup_alter_eq. destruct (t !! b); simpl; [|done]. by rewrite Hf.
  - by rewrite !lookup_alter_ne.
Qed.

Section TranslatorBehaviour.

Variable std_starttag :
  gmap addr Element → addr → string → string → bool → gmap string pyval → string.

(** The state [starttag] leaves, by cases on the tag and on the tree. *)
Lemma starttag_state st node tagname suffix empty attrs :
  (starttag std_starttag node tagname suffix empty attrs st).2 = st
  ∨ (∃ n data,
       tagname = "a" ∧ doctree st !! node = Some n ∧ _hoverxref n = Some data
       ∧ (starttag std_starttag node tagname suffix empty attrs st).2
         = mkRender (doctree st)
             (render_log st ++ [LogRecord INFO "_hoverxref attributes: %s"
                                  [ArgDict (dict_update attrs data)]]))
  ∨ (∃ n p pn,
       tagname = "dt" ∧ doctree st !! node = Some n ∧ parent n = Some p
       ∧ doctree st !! p = Some pn
       ∧ py_get_eq (node_get pn "ids") (node_get n "ids") = true
       ∧ (starttag std_starttag node tagname suffix empty attrs st).2
         = mkRender (alter (replace_attr "ids" (PList [])) node (doctree st))
             (render_log st)).
Proof.
  unfold starttag, deref, parent_of, mutate, render_info, super_starttag. run_M.
  destruct (String.eqb tagname "a") eqn:Ea.
  { apply String.eqb_eq in Ea. destruct (doctree st !! node) as [n|] eqn:Hn;
      simpl; [|by left].
    destruct (_hoverxref n) as [data|] eqn:Hd; simpl; [|by left].
    right. left. by exists n, data. }
  destruct (String.eqb tagname "dt") eqn:Ed; [|by left].
  apply String.eqb_eq in Ed.
  destruct (doctree st !! node) as [n|] eqn:Hn; simpl; [|by left].
  destruct (parent n) as [p|] eqn:Hp; simpl; [|by left].
  destruct (doctree st !! p) as [pn|] eqn:Hpn; simpl; [|by left].
  destruct (py_get_eq _ _) eqn:Heq; simpl; [|by left].
  right. right. by exists n, p, pn.
Qed.

(** X10.  Whatever the tag, the interceptor changes at most the [ids] of the
    node it is called on: every other node of the tree is as before, the
    node keeps its parent, its metadata and every other attribute, no node
    appears or disappears, and the log grows by at most one record. *)
Theorem starttag_changes_only_ids st node tagname suffix empty attrs :
  (∀ b, b ≠ node →
     doctree (starttag std_starttag node tagname suffix empty attrs st).2 !! b
     = doctree st !! b)
  ∧ (∀ n, doctree st !! node = Some n →
       ∃ n',
         doctree (starttag std_starttag node tagname suffix empty attrs st).2
           !! node = Some n'
         ∧ parent n' = parent n
         ∧ _hoverxref n' = _hoverxref n
         ∧ ∀ k, k ≠ "ids" → attributes n' !! k = attributes n !! k)
  ∧ (doctree st !! node = None →
     doctree (starttag std_starttag node tagname suffix empty attrs st).2
       !! node = None)
  ∧ ∃ records,
      render_log (starttag std_starttag node tagname suffix empty attrs st).2
      = render_log st ++ records
      ∧ (List.length records ≤ 1)%nat.
Proof.
  destruct (starttag_state st node tagname suffix empty attrs)
    as [-> | [(n0 & data & _ & Hn & _ & ->) | (n0 & p & pn & _ & Hn & _ & _ & _ & ->)]];
    simpl.
  - do 3 (split; [eauto|]). exists []. split; [by rewrite app_nil_r | simpl; lia].
  - do 3 (split; [eauto|]). eexists [_]. split; [done | simpl; lia].
  - split. { intros b Hb. by rewrite lookup_alter_ne. }
    split.
    { intros n Hn'. rewrite lookup_alter_eq, Hn'. simpl. eexists. split; [done|].
      simpl. repeat split. intros k Hk. by rewrite lookup_insert_ne. }
    split. { intros Hnone. by rewrite lookup_alter_eq, Hnone. }
    exists []. split; [by rewrite app_nil_r | simpl; lia].
Qed.

(** X11.  Rendering the same tag twice leaves the tree that rendering it
    once leaves: once the ids of a term are cleared, a second pass finds
    nothing more to change. *)
Theorem starttag_twice_same_tree st node tagname suffix empty attrs :
  doctree (starttag std_starttag node tagname suffix empty attrs
             (starttag std_starttag node tagname suffix empty attrs st).2).2
  = doctree (starttag std_starttag node tagname suffix empty attrs st).2.
Proof.
  destruct (starttag_state st node tagname suffix empty attrs)
    as [E | [(n0 & data & Ht & _ & _ & E)
            | (n0 & p & pn & Ht & _ & _ & _ & _ & E)]];
    rewrite E; [by rewrite E| |].
  - destruct (starttag_state
                (mkRender (doctree st)
                   (render_log st ++ [LogRecord INFO "_hoverxref attributes: %s"
                                        [ArgDict (dict_update attrs data)]]))
                node tagname suffix empty attrs)
      as [-> | [(? & ? & _ & _ & _ & ->) | (? & ? & ? & Hdt & _)]];
      [done | done |].
    rewrite Ht in Hdt. discriminate.
  - destruct (starttag_state
                (mkRender (alter (replace_attr "ids" (PList [])) node (doctree st))
                   (render_log st))
                node tagname suffix empty attrs)
      as [-> | [(? & ? & _ & _ & _ & ->) | (? & ? & ? & _ & _ & _ & _ & _ & ->)]];
      [done | done |].
    simpl. apply alter_idempotent. intros n. apply replace_attr_idempotent.
Qed.

(** X12.  A [dt] tag on a node whose ids differ from those of its parent:
    nothing changes, and the host emitter gets the tree and the attributes
    as they are. *)
Theorem term_with_own_ids_untouched st a n p pn suffix empty attrs :
  doctree st !! a = Some n →
  parent n = Some p →
  doctree st !! p = Some pn →
  py_get_eq (node_get pn "ids") (node_get n "ids") = false →
  starttag std_starttag a "dt" suffix empty attrs st
  = (inr (std_starttag (doctree st) a "dt" suffix empty attrs), st).
Proof.
  intros Hn Hp Hpn Heq.
  unfold starttag, deref, parent_of, mutate, super_starttag. run_M.
  rewrite Hn, Hp. simpl. by rewrite Hpn, Heq.
Qed.

(** X13.  A [dt] tag on a node without a parent raises: [node.parent] is
    [None], which has no [get].  The host emitter is not reached and the
    state is left as it was. *)
Theorem term_without_parent_raises st a n suffix empty attrs :
  doctree st !! a = Some n →
  parent n = None →
  starttag std_starttag a "dt" suffix empty attrs st
  = (inl (AttributeError "get"), st).
Proof.
  intros Hn Hp.
  unfold starttag, deref, parent_of, super_starttag. run_M.
  by rewrite Hn, Hp.
Qed.

(** X14.  Every tag other than [a] and [dt] goes to the host emitter with
    its attributes as they are, and the state is left as it was; the node is
    not even looked at. *)
Theorem other_tags_pass_through st node tagname suffix empty attrs :
  tagname ≠ "a" →
  tagname ≠ "dt" →
  starttag std_starttag node tagname suffix empty attrs st
  = (inr (std_starttag (doctree st) node tagname suffix empty attrs), st).
Proof.
  intros Ha Hd. apply String.eqb_neq in Ha, Hd.
  unfold starttag, super_starttag. run_M. by rewrite Ha, Hd.
Qed.

End TranslatorBehaviour.

(** ** Further properties of the asset step and of [setup] *)

(** One loop of [build_context]: the entries of [m] whose key has the
    prefix are written over [init]. *)
Lemma context_loop_lookup {A} (g : A → pyval) (init : gmap string pyval)
    (m : gmap string A) (name : string) :
  map_fold (λ attr v context,
              if startswith attr "hoverxref_"
              then <[attr := g v]> context else context) init m !! name
  = if startswith name "hoverxref_"
    then match m !! name with
         | Some v => Some (g v)
         | None => init !! name
         end
    else init !! name.
Proof.
  revert m. apply (map_fold_weak_ind (λ r m, r !! name = _)).
  - rewrite lookup_empty. by destruct (startswith name "hoverxref_").
  - intros i x m r Hi IH. destruct (decide (i = name)) as [->|Hne].
    + rewrite lookup_insert_eq.
      destruct (startswith name "hoverxref_"); [by rewrite lookup_insert_eq|].
      done.
    + rewrite (lookup_insert_ne m) by done.
      destruct (startswith i "hoverxref_"); [by rewrite lookup_insert_ne|done].
Qed.

(** X15.  The template context has an entry exactly for the names that
    start with [hoverxref_] and are set by the user or registered: the
    user's value when there is one, the registered default otherwise.  For
    such a name the context holds the value that reading the option gives. *)
Theorem template_context_holds_active_values (c : Config) (name : string) :
  build_context c !! name
  = (if startswith name "hoverxref_"
     then match __dict__ c !! name with
          | Some v => Some v
          | None => fst <$> values c !! name
          end
     else None)
  ∧ ∀ v, startswith name "hoverxref_" = true →
         (build_context c !! name = Some v ↔ getattr c name = inr v).
Proof.
  assert (E : build_context c !! name
              = if startswith name "hoverxref_"
                then match __dict__ c !! name with
                     | Some v => Some v
                     | None => fst <$> values c !! name
                     end
                else None).
  { unfold build_context.
    rewrite (context_loop_lookup (λ v, v)), (context_loop_lookup fst).
    rewrite lookup_empty.
    destruct (startswith name "hoverxref_"); [|done].
    destruct (__dict__ c !! name); [done|]. by destruct (values c !! name). }
  split; [exact E|]. intros v Hs. rewrite E, Hs. unfold getattr.
  destruct (__dict__ c !! name); [naive_solver|].
  destruct (values c !! name) as [[d r]|]; simpl; naive_solver.
Qed.

(** [s.split('.')[-1]] of a name that ends in a dot and an extension
    without dots is the extension. *)
Lemma split_last_from_extension (base ext acc : string) :
  split_last_from "." (base +:+ String "." ext) acc
  = split_last_from "." ext ext.
Proof.
  revert acc. induction base as [|c base IH]; intros acc; simpl.
  - done.
  - destruct (Ascii.eqb c "."); apply IH.
Qed.

(** X16.  The directory an asset is copied to depends on its extension
    alone: a name that ends in [.js] or in the template suffix [.js_t] goes
    to [js] under the static directory of the output, a name that ends in
    [.css] to [css], whatever directory and dots the rest of the name has. *)
Theorem asset_destination_by_extension (app : Sphinx) (base : string) :
  asset_destination app (base +:+ ".js")
  = path_join (path_join (outdir app) "_static") "js"
  ∧ asset_destination app (base +:+ ".js_t")
    = path_join (path_join (outdir app) "_static") "js"
  ∧ asset_destination app (base +:+ ".css")
    = path_join (path_join (outdir app) "_static") "css".
Proof.
  unfold asset_destination, split_last.
  by rewrite !split_last_from_extension.
Qed.

(** X17.  [setup] and the asset step agree on the five assets: each is
    registered once with the host, as a script or as a style sheet, under
    its name without the template suffix, and the directory of that name is
    the directory under the static directory the asset is copied to. *)
Theorem assets_registered_where_copied (environ : gmap string string)
    (version : string) (app : Sphinx) :
  Forall (λ f,
            (In (add_js_file (replace f ".js_t" ".js")) (setup environ version []).2
             ∨ In (add_css_file (replace f ".js_t" ".js"))
                  (setup environ version []).2)
            ∧ asset_destination app f
              = path_join (path_join (outdir app) "_static")
                  (dirname (replace f ".js_t" ".js")))
         ASSETS_FILES
  ∧ List.length (List.filter (λ a, match a with
                                   | add_js_file _ | add_css_file _ => true
                                   | _ => false
                                   end) (setup environ version []).2)
    = List.length ASSETS_FILES.
Proof.
  rewrite setup_calls. split; [|reflexivity].
  unfold ASSETS_FILES.
  repeat (apply Forall_cons; split; [split; [simpl; tauto | reflexivity]|]).
  apply Forall_nil_2.
Qed.

(** ** The further properties at work on the small project *)

Lemma unresolved_reference_passes_through_witness :
  _resolve_ref_xref () Example.host_ref Example.xref_data
    (mkEnv (mkConfig ∅ ∅)) "index" () "ref" "missing"
    Example.pending Example.pending []
  = (inr None, [])
  ∧ _resolve_obj_xref () Example.host_obj Example.obj_data ["confval"]
      (mkEnv (mkConfig ∅ ∅)) "index" () "confval" "missing"
      Example.pending Example.pending []
    = (inr None, []).
Proof.
  split.
  - apply (unresolved_reference_passes_through () Example.host_ref
             Example.host_obj Example.host_dispatch Example.xref_data
             Example.obj_data ["confval"] (mkEnv (mkConfig ∅ ∅)) "index" ()
             "ref" "missing" Example.pending Example.pending []).
    vm_compute. reflexivity.
  - apply (unresolved_reference_passes_through () Example.host_ref
             Example.host_obj Example.host_dispatch Example.xref_data
             Example.obj_data ["confval"] (mkEnv (mkConfig ∅ ∅)) "index" ()
             "confval" "missing" Example.pending Example.pending []).
    vm_compute. reflexivity.
Defined.

Lemma auto_ref_off_leaves_reference_witness :
  _resolve_ref_xref () Example.host_ref Example.xref_data
    (mkEnv Example.configured) "index" () "ref" "section-i"
    Example.pending Example.pending []
  = (inr (Some (Example.plain_reference "chapter-i" "section-i")), []).
Proof.
  apply (auto_ref_off_leaves_reference () Example.host_ref Example.xref_data
           (mkEnv Example.configured) "index" () "ref" "section-i"
           Example.pending Example.pending
           (Example.plain_reference "chapter-i" "section-i")
           (PStr "myproject") (PStr "myversion") (PBool false) []);
    [discriminate | vm_compute; reflexivity ..].
Defined.

Lemma unregistered_object_type_passes_through_witness :
  _resolve_obj_xref () Example.host_obj Example.obj_data ["option"]
    (mkEnv Example.configured) "index" () "confval" "conf-title"
    Example.pending Example.pending []
  = (inr (Some (Example.plain_reference "configuration" "confval-conf-title")),
     []).
Proof.
  apply (unregistered_object_type_passes_through () Example.host_obj
           Example.obj_data ["option"] (mkEnv Example.configured) "index" ()
           "confval" "conf-title" Example.pending Example.pending []).
  intros H. apply list_elem_of_singleton in H. discriminate H.
Defined.

Lemma resolved_node_keeps_host_attributes_witness :
  attributes
    (set_hoverxref
       (hover_metadata (PStr "myproject") (PStr "myversion")
          (PStr "chapter-i") (PStr "section-i"))
       (replace_attr "classes" (PList ["hoverxref"])
          (Example.plain_reference "chapter-i" "section-i"))) !! "refuri"
  = attributes (Example.plain_reference "chapter-i" "section-i") !! "refuri".
Proof.
  destruct (resolved_node_keeps_host_attributes () Example.host_ref
              Example.host_obj Example.xref_data Example.obj_data ["confval"]
              (mkEnv Example.configured) "index" ()
              "hoverxref" "section-i" Example.pending Example.pending
              (Example.plain_reference "chapter-i" "section-i")
              (set_hoverxref
                 (hover_metadata (PStr "myproject") (PStr "myversion")
                    (PStr "chapter-i") (PStr "section-i"))
                 (replace_attr "classes" (PList ["hoverxref"])
                    (Example.plain_reference "chapter-i" "section-i")))
              "confval" "conf-title" Example.pending Example.pending
              (Example.plain_reference "configuration" "confval-conf-title")
              (set_hoverxref
                 (hover_metadata (PStr "myproject") (PStr "myversion")
                    (PStr "configuration") (PStr "confval-conf-title"))
                 (replace_attr "classes" (PList ["hoverxref"])
                    (Example.plain_reference "configuration"
                       "confval-conf-title")))
              [])
    as ((_ & Hkeep & _) & _);
    [vm_compute; reflexivity ..|].
  apply Hkeep. discriminate.
Defined.

Lemma unconfigured_build_returns_host_nodes_witness :
  _resolve_ref_xref () Example.host_ref Example.xref_data
    (mkEnv Example.unconfigured) "index" () "ref" "section-i"
    Example.pending Example.pending []
  = (inr (Some (Example.plain_reference "chapter-i" "section-i")), [])
  ∧ _resolve_obj_xref () Example.host_obj Example.obj_data ["confval"]
      (mkEnv Example.unconfigured) "index" () "ref" "section-i"
      Example.pending Example.pending []
    = (inr None, []).
Proof.
  apply (unconfigured_build_returns_host_nodes () Example.host_ref
           Example.host_obj Example.xref_data Example.obj_data ["confval"]
           (mkEnv Example.unconfigured) "index" () "ref" "section-i"
           Example.pending Example.pending PNone PNone []);
    [vm_compute; reflexivity | vm_compute; reflexivity | reflexivity
    | left; discriminate].
Defined.

Lemma injection_replaces_earlier_injection_witness :
  ∃ once,
    _inject_hoverxref_data (mkEnv Example.configured)
      (Example.plain_reference "chapter-i" "section-i")
      "chapter-i" "section-i" [] = (inr once, [])
    ∧ _inject_hoverxref_data (mkEnv Example.configured) once
        "configuration" "configuration" []
      = _inject_hoverxref_data (mkEnv Example.configured)
          (Example.plain_reference "chapter-i" "section-i")
          "configuration" "configuration" [].
Proof.
  destruct (injection_replaces_earlier_injection (mkEnv Example.configured)
              (Example.plain_reference "chapter-i" "section-i")
              "chapter-i" "section-i" "configuration" "configuration"
              (PStr "myproject") (PStr "myversion") [])
    as (once & H1 & H2 & _);
    [vm_compute; reflexivity ..|].
  exists once. split; [exact H1 | exact H2].
Defined.

Lemma user_values_override_environment_witness :
  resolve_xref () Example.host_ref Example.host_obj Example.host_dispatch
    Example.xref_data Example.obj_data ["confval"]
    (mkEnv (config_after_setup Example.rtd_environ "0.1"
              (mkConfig ∅ (<["hoverxref_version" := PStr "stable"]>
                            (<["hoverxref_project" := PStr "mine"]> ∅)))))
    "index" () "hoverxref" "section-i" Example.pending Example.pending []
  = (inr (Some (set_hoverxref
                  (hover_metadata (PStr "mine") (PStr "stable")
                     (PStr "chapter-i") (PStr "section-i"))
                  (replace_attr "classes" (PList ["hoverxref"])
                     (Example.plain_reference "chapter-i" "section-i")))),
     [LogRecord INFO ":ref: _hoverxref injected: fromdocname=%s %s"
        [ArgStr "index";
         ArgDict (hover_metadata (PStr "mine") (PStr "stable")
                    (PStr "chapter-i") (PStr "section-i"))]])
  ∧ hover_metadata (PStr "mine") (PStr "stable")
      (PStr "chapter-i") (PStr "section-i") !! "data-project"
    = Some (PStr "mine")
  ∧ hover_metadata (PStr "mine") (PStr "stable")
      (PStr "chapter-i") (PStr "section-i") !! "data-version"
    = Some (PStr "stable").
Proof.
  destruct (user_values_override_environment () Example.host_ref Example.host_obj
           Example.host_dispatch Example.xref_data Example.obj_data ["confval"]
           Example.rtd_environ "0.1"
           (mkConfig ∅ (<["hoverxref_version" := PStr "stable"]>
                         (<["hoverxref_project" := PStr "mine"]> ∅)))
           (PStr "mine") (PStr "stable")
           "index" () "section-i" Example.pending Example.pending
           (Example.plain_reference "chapter-i" "section-i")
           "chapter-i" "section-i" "Section I" [])
    as (Hrun & _ & Hproject & Hversion & _);
    [vm_compute; reflexivity ..|].
  split; [exact Hrun|]. split; [exact Hproject | exact Hversion].
Defined.

Lemma term_with_own_ids_untouched_witness :
  starttag Example.host_starttag 2%positive "dt" EmptyString false ∅
    (mkRender (<[1%positive := mkElement None (<["ids" := PList ["other"]]> ∅) None]>
                 Example.tree) [])
  = (inr "<dt id=confval-conf-title>",
     mkRender (<[1%positive := mkElement None (<["ids" := PList ["other"]]> ∅) None]>
                 Example.tree) []).
Proof.
  refine (eq_trans (term_with_own_ids_untouched Example.host_starttag
           (mkRender (<[1%positive :=
                          mkElement None (<["ids" := PList ["other"]]> ∅) None]>
                        Example.tree) [])
           2%positive
           (mkElement (Some 1%positive)
              (<["ids" := PList ["confval-conf-title"]]> ∅) None)
           1%positive
           (mkElement None (<["ids" := PList ["other"]]> ∅) None)
           EmptyString false ∅ _ _ _ _) _);
    vm_compute; reflexivity.
Defined.

Lemma term_without_parent_raises_witness :
  starttag Example.host_starttag 1%positive "dt" EmptyString false ∅
    (mkRender Example.tree [])
  = (inl (AttributeError "get"), mkRender Example.tree []).
Proof.
  apply (term_without_parent_raises Example.host_starttag
           (mkRender Example.tree []) 1%positive
           (mkElement None (<["ids" := PList ["confval-conf-title"]]> ∅) None)
           EmptyString false ∅);
    vm_compute; reflexivity.
Defined.

Lemma other_tags_pass_through_witness :
  starttag Example.host_starttag 1%positive "dl" EmptyString false ∅
    (mkRender Example.tree [])
  = (inr "<dl id=confval-conf-title>", mkRender Example.tree []).
Proof.
  refine (eq_trans (other_tags_pass_through Example.host_starttag
                      (mkRender Example.tree []) 1%positive "dl" EmptyString
                      false ∅ _ _) _);
    [discriminate | discriminate | vm_compute; reflexivity].
Defined.
